(** * tfatool: the command.cgi layer ([tfatool/command.py])

    A shallow embedding of the response decoding and of the command API of
    [tfatool/command.py], with the properties of its specification.

    Conventions of the embedding.
    - A Python [int] is a [Z]; [>>], [<<] and [&] are [Z.shiftr],
      [Z.shiftl] and [Z.land] (same two's-complement meaning on negatives).
    - A Python [str] is a [string] whose characters are the code points
      below 256.
    - A raised exception is a value of [exn]; a call that may raise returns
      a [result].
    - A generator is the trace of its consumption: the items yielded, in
      order, and the exception that ended it, if one did ([gen]).
    - [_get(operation, url, ...)] is the device's answer: the response text
      is an argument of the functions that issue one request, and a function
      from the requested directory to the response text for the recursive
      listing. *)

From Stdlib Require Import ZArith Ascii String List Lia Bool.
From stdpp Require Import base option list gmap strings.

Local Open Scope Z_scope.

(** ** Exceptions and results *)

Inductive exn : Type :=
  | ValueError
  | OverflowError
  | IOError (msg : string).

Inductive result (A : Type) : Type :=
  | Ok (a : A)
  | Err (e : exn).
Arguments Ok {A} a.
Arguments Err {A} e.

Definition bind {A B : Type} (r : result A) (k : A -> result B) : result B :=
  match r with
  | Ok a => k a
  | Err e => Err e
  end.

(** The consumption of a generator: what it yielded, and how it ended. *)
Definition gen (A : Type) : Type := (list A * option exn)%type.

(** ** Python's string primitives *)

Module Py.

Definition chars (s : string) : list ascii := list_ascii_of_string s.
Definition str (l : list ascii) : string := string_of_list_ascii l.

Definition code (c : ascii) : Z := Z.of_N (N_of_ascii c).

(** [str.startswith] *)
Fixpoint startswith (p s : list ascii) : bool :=
  match p, s with
  | [], _ => true
  | a :: p', b :: s' => if Ascii.eqb a b then startswith p' s' else false
  | _ :: _, [] => false
  end.

(** [s.split(sep)] for a non-empty separator [sep]: the pieces between the
    occurrences of [sep], found from left to right without overlap.
    [skip] counts the characters of a separator still to be passed. *)
Fixpoint split_go (sep : list ascii) (skip : nat) (s : list ascii)
  : list (list ascii) :=
  match s with
  | [] => [[]]
  | c :: s' =>
      match skip with
      | S k => split_go sep k s'
      | O =>
          if startswith sep s
          then [] :: split_go sep (Nat.pred (List.length sep)) s'
          else match split_go sep 0 s' with
               | h :: t => (c :: h) :: t
               | [] => [[c]]
               end
      end
  end.

(** [s.split(sep)] on strings. *)
Definition split (s sep : string) : list string :=
  List.map str (split_go (chars sep) 0 (chars s)).

(** [sep.join(parts)] *)
Fixpoint join (sep : string) (parts : list string) : string :=
  match parts with
  | [] => EmptyString
  | [p] => p
  | p :: ps => String.append p (String.append sep (join sep ps))
  end.

(** The characters [int()] skips around the number: the ASCII white space
    of C ([\t], [\n], [\v], [\f], [\r] and the space) and, above ASCII,
    the Unicode white space (U+0085 and U+00A0 below 256). *)
Definition isspace (c : ascii) : bool :=
  let n := code c in
  ((9 <=? n) && (n <=? 13)) || (n =? 32) || (n =? 133) || (n =? 160).

Fixpoint lstrip (l : list ascii) : list ascii :=
  match l with
  | c :: l' => if isspace c then lstrip l' else l
  | [] => []
  end.

Definition strip (l : list ascii) : list ascii :=
  rev (lstrip (rev (lstrip l))).

Definition digit_val (c : ascii) : option Z :=
  let n := code c in
  if (48 <=? n) && (n <=? 57) then Some (n - 48) else None.

(** Decimal digits, single underscores allowed between two digits.
    [need_digit] holds at the start and after an underscore. Returns the
    value and the number of digits. *)
Fixpoint digits (acc : Z) (count : nat) (need_digit : bool)
    (l : list ascii) : option (Z * nat) :=
  match l with
  | [] => if need_digit then None else Some (acc, count)
  | c :: l' =>
      if Ascii.eqb c "_"%char
      then (if need_digit then None else digits acc count true l')
      else match digit_val c with
           | Some d => digits (10 * acc + d) (S count) false l'
           | None => None
           end
  end.

(** [sys.get_int_max_str_digits()], CPython's default. *)
Definition int_max_str_digits : nat := 4300.

(** [int(s)] on a string: [None] stands for the [ValueError] it raises. *)
Definition int (s : string) : option Z :=
  let l := strip (chars s) in
  let '(neg, body) :=
    match l with
    | c :: t =>
        if Ascii.eqb c "-"%char then (true, t)
        else if Ascii.eqb c "+"%char then (false, t)
        else (false, l)
    | [] => (false, l)
    end in
  match digits 0 0 true body with
  | Some (v, n) =>
      if (int_max_str_digits <? n)%nat then None
      else Some (if neg then - v else v)
  | None => None
  end.

(** [s.startswith(p)] on strings. *)
Definition str_startswith (s p : string) : bool :=
  startswith (chars p) (chars s).

(** [all(pred(x) for pred in preds)] *)
Definition all_of {A : Type} (preds : list (A -> bool)) (x : A) : bool :=
  forallb (fun p => p x) preds.

End Py.

(** ** [pathlib.PurePosixPath] *)

Module PurePosixPath.

Definition sep : ascii := "/"%char.

Fixpoint lstrip_sep (l : list ascii) : list ascii :=
  match l with
  | c :: l' => if Ascii.eqb c sep then lstrip_sep l' else l
  | [] => []
  end.

(** [splitroot]: the root is "//" for exactly two leading separators, "/"
    for one or for three and more, and empty otherwise. *)
Definition splitroot (part : string) : string * string :=
  let l := Py.chars part in
  match l with
  | c :: _ =>
      if Ascii.eqb c sep then
        let stripped := lstrip_sep l in
        if (List.length l - List.length stripped =? 2)%nat
        then ("//"%string, Py.str stripped)
        else ("/"%string, Py.str stripped)
      else (EmptyString, part)
  | [] => (EmptyString, part)
  end.

(** The components of a relative part: empty ones and "." are dropped. *)
Definition keep (x : string) : bool :=
  negb (String.eqb x EmptyString) && negb (String.eqb x ".").

Definition components (rel : string) : list string :=
  List.filter keep (Py.split rel "/").

(** [parse_parts]: the arguments are read from the last to the first, and
    the reading stops at the first one that has a root. *)
Fixpoint parse_parts_rev (parts : list string) : string * list string :=
  match parts with
  | [] => (EmptyString, [])
  | part :: before =>
      if String.eqb part EmptyString then parse_parts_rev before
      else
        let '(root, rel) := splitroot part in
        if String.eqb root EmptyString then
          let '(root', parsed) := parse_parts_rev before in
          (root', parsed ++ components rel)
        else (root, components rel)
  end.

Definition parse_parts (args : list string) : string * list string :=
  parse_parts_rev (rev args).

(** [str(PurePosixPath(...))] on the given arguments. *)
Definition to_str (args : list string) : string :=
  let '(root, parsed) := parse_parts args in
  let s := String.append root (Py.join "/" parsed) in
  if String.eqb s EmptyString then "."%string else s.

End PurePosixPath.

(** A component that [PurePosixPath] keeps as it is: not empty, not ".",
    and without a separator. *)
Definition plain_component (p : string) : bool :=
  PurePosixPath.keep p
  && negb (existsb (Ascii.eqb PurePosixPath.sep) (Py.chars p)).

(** ** Timestamps: [arrow.get] over [datetime] *)

Inductive tzinfo : Type := TzLocal | TzUTC.

Record Arrow : Type := mkArrow {
  year : Z; month : Z; day : Z;
  hour : Z; minute : Z; second : Z;
  tz : tzinfo
}.

Module Datetime.

Definition is_leap (y : Z) : bool :=
  (y mod 4 =? 0) && (negb (y mod 100 =? 0) || (y mod 400 =? 0)).

Definition days_in_month (y m : Z) : Z :=
  if m =? 2 then (if is_leap y then 29 else 28)
  else if (m =? 4) || (m =? 6) || (m =? 9) || (m =? 11) then 30
  else 31.

(** The ranges [datetime(...)] accepts; outside them it raises
    [ValueError]. *)
Definition valid (y m d h mi s : Z) : bool :=
  (1 <=? y) && (y <=? 9999) && (1 <=? m) && (m <=? 12)
  && (1 <=? d) && (d <=? days_in_month y m)
  && (0 <=? h) && (h <=? 23) && (0 <=? mi) && (mi <=? 59)
  && (0 <=? s) && (s <=? 59).

(** The arguments are converted to C [int]s first; one that does not fit
    raises [OverflowError]. *)
Definition c_int (z : Z) : bool := (- 2 ^ 31 <=? z) && (z <? 2 ^ 31).

End Datetime.

(** [arrow.get(year, month, day, hour, minute, second, tzinfo=...)]: the
    timestamp with these fields; without [tzinfo] the zone is UTC. *)
Definition arrow_get (y m d h mi s : Z) (zone : tzinfo) : result Arrow :=
  if negb (forallb Datetime.c_int [y; m; d; h; mi; s]) then Err OverflowError
  else if Datetime.valid y m d h mi s then Ok (mkArrow y m d h mi s zone)
  else Err ValueError.

(** ** Response decoding *)

Definition _decode_time (date_val time_val : Z) : result Arrow :=
  let year := Z.shiftr date_val 9 + 1980 in
  let month := Z.shiftr (Z.land date_val (Z.shiftl 15 5)) 5 in
  let day := Z.land date_val 31 in
  let hour := Z.shiftr time_val 11 in
  let minute := Z.land (Z.shiftr time_val 5) 63 in
  let second := Z.land time_val 31 * 2 in
  match arrow_get year month day hour minute second TzLocal with
  | Err ValueError =>
      let year := Z.max 1980 year in
      let month := Z.min (Z.max 1 month) 12 in
      let day := Z.max 1 day in
      arrow_get year month day hour minute second TzUTC
  | decoded => decoded
  end.

Record AttrInfo : Type := mkAttrInfo {
  archive : bool; directly : bool; volume : bool;
  system_file : bool; hidden_file : bool; read_only : bool
}.

(** [reversed(range(6))] *)
Definition bit_positions : list Z := rev [0; 1; 2; 3; 4; 5].

(** [bool(n)] for an integer. *)
Definition truthy (n : Z) : bool := negb (n =? 0).

Definition _decode_attribute (attr_val : Z) : AttrInfo :=
  let bit_flags :=
    List.map (fun bit => truthy (Z.land attr_val (Z.shiftl 1 bit)))
             bit_positions in
  let flag (i : nat) := nth i bit_flags false in
  mkAttrInfo (flag 0%nat) (flag 1%nat) (flag 2%nat)
             (flag 3%nat) (flag 4%nat) (flag 5%nat).

(** Modelled from the spec: the record [FileInfo] of [tfatool/info.py], a
    decoded listing entry with the fields directory, filename, path, size,
    attribute and datetime, in the order [command.py] constructs it. *)
Record FileInfo : Type := mkFileInfo {
  directory : string; filename : string; path : string;
  size : Z; attribute : AttrInfo; datetime : Arrow
}.

Module Raw.
(** Modelled from the spec: the record [RawFileInfo] of [tfatool/info.py],
    with the fields directory, filename, path and size. *)
Record RawFileInfo : Type := mkRawFileInfo {
  directory : string; filename : string; path : string; size : Z
}.
End Raw.

Definition CRLF : string := String "013" (String "010" EmptyString).

(** [int(field)] where a failure raises. *)
Definition int_field (field : string) : result Z :=
  match Py.int field with
  | Some n => Ok n
  | None => Err ValueError
  end.

(** The body of [if len(groups) == 6] in [_split_file_list]. *)
Definition decode_entry (directory filename s1 s2 s3 s4 : string)
  : result FileInfo :=
  bind (int_field s1) (fun size =>
  bind (int_field s2) (fun attr_val =>
  bind (int_field s3) (fun date_val =>
  bind (int_field s4) (fun time_val =>
  bind (_decode_time date_val time_val) (fun timeinfo =>
  let attribute := _decode_attribute attr_val in
  let path := PurePosixPath.to_str [directory; filename] in
  Ok (mkFileInfo directory filename path size attribute timeinfo)))))).

(** One turn of the loop of [_split_file_list]: nothing for a line that
    does not split into six groups, the entry or the exception otherwise. *)
Definition decode_line (line : string) : option (result FileInfo) :=
  match Py.split line "," with
  | [directory; filename; s1; s2; s3; s4] =>
      Some (decode_entry directory filename s1 s2 s3 s4)
  | _ => None
  end.

(** The loop over the lines, shared by [_split_file_list] and
    [_split_file_list_raw]: a line that gives nothing is passed over, an
    entry is yielded, an exception ends the generator. *)
Fixpoint decode_lines {A : Type} (decode : string -> option (result A))
    (lines : list string) : gen A :=
  match lines with
  | [] => ([], None)
  | line :: lines' =>
      match decode line with
      | Some (Ok fileinfo) =>
          let '(files, raised) := decode_lines decode lines' in
          (fileinfo :: files, raised)
      | Some (Err e) => ([], Some e)
      | None => decode_lines decode lines'
      end
  end.

Definition _split_file_list (text : string) : gen FileInfo :=
  decode_lines decode_line (Py.split text CRLF).

(** The body of [if len(groups) == 6] in [_split_file_list_raw]. *)
Definition decode_entry_raw (directory filename s1 : string)
  : result Raw.RawFileInfo :=
  let path := PurePosixPath.to_str [directory; filename] in
  bind (int_field s1) (fun size =>
  Ok (Raw.mkRawFileInfo directory filename path size)).

Definition decode_line_raw (line : string)
  : option (result Raw.RawFileInfo) :=
  match Py.split line "," with
  | [directory; filename; s1; _; _; _] =>
      Some (decode_entry_raw directory filename s1)
  | _ => None
  end.

Definition _split_file_list_raw (text : string) : gen Raw.RawFileInfo :=
  decode_lines decode_line_raw (Py.split text CRLF).

(** The entries of the lines that decode, and whether a line raises. *)
Definition entries_of {A : Type} (decode : string -> option (result A))
    (lines : list string) : list A :=
  flat_map (fun line => match decode line with
                        | Some (Ok fileinfo) => [fileinfo]
                        | _ => []
                        end) lines.

Definition raises {A : Type} (decode : string -> option (result A))
    (line : string) : bool :=
  match decode line with
  | Some (Err _) => true
  | _ => false
  end.

(** ** The command.cgi API *)

(** The condition of the generator expression of [list_files]. *)
Definition keeps (filters : list (FileInfo -> bool)) (f : FileInfo) : bool :=
  negb (directly (attribute f)) && Py.all_of filters f.

Definition list_files (filters : list (FileInfo -> bool)) (text : string)
  : gen FileInfo :=
  let '(files, raised) := _split_file_list text in
  (List.filter (keeps filters) files, raised).

Definition list_files_raw (filters : list (Raw.RawFileInfo -> bool))
    (text : string) : gen Raw.RawFileInfo :=
  let '(files, raised) := _split_file_list_raw text in
  (List.filter (Py.all_of filters) files, raised).

(** [{f.filename: f for f in files}]: the entries are stored in the order
    they are yielded. *)
Definition dict_by_filename (files : list FileInfo) : gmap string FileInfo :=
  fold_left (fun d f => <[filename f := f]> d) files ∅.

Definition map_files (filters : list (FileInfo -> bool)) (text : string)
  : result (gmap string FileInfo) :=
  match list_files filters text with
  | (files, None) => Ok (dict_by_filename files)
  | (_, Some e) => Err e
  end.

Definition dict_by_filename_raw (files : list Raw.RawFileInfo)
  : gmap string Raw.RawFileInfo :=
  fold_left (fun d f => <[Raw.filename f := f]> d) files ∅.

Definition map_files_raw (filters : list (Raw.RawFileInfo -> bool))
    (text : string) : result (gmap string Raw.RawFileInfo) :=
  match list_files_raw filters text with
  | (files, None) => Ok (dict_by_filename_raw files)
  | (_, Some e) => Err e
  end.

Definition count_files (text : string) : result Z := int_field text.

Definition memory_changed_message : string :=
  "Likely no FlashAir connection, memory changed CGI command failed".

Definition memory_changed (text : string) : result bool :=
  match Py.int text with
  | Some n => Ok (n =? 1)
  | None => Err (IOError memory_changed_message)
  end.

(** Modelled from the spec: the members of the enumerations [WifiMode] and
    [WifiModeOnBoot] of [tfatool/info.py]. A member has the enumeration it
    belongs to, a name and an integer value; which members there are is left
    open ([WifiModes] below takes them as variables). *)
Inductive ModeFamily : Type := WifiMode | WifiModeOnBoot.

Record Mode : Type := mkMode {
  family : ModeFamily; name : string; value : Z
}.

(** The loop of [get_wifi_mode]: the first member with the value, or the
    [ValueError] after the loop. *)
Fixpoint find_mode (all_modes : list Mode) (mode_value : Z) : result Mode :=
  match all_modes with
  | [] => Err ValueError
  | mode :: rest =>
      if value mode =? mode_value then Ok mode else find_mode rest mode_value
  end.

Section WifiModes.

(** [list(WifiMode)] and [list(WifiModeOnBoot)] *)
Variable WifiMode_members : list Mode.
Variable WifiModeOnBoot_members : list Mode.

Definition get_wifi_mode (text : string) : result Mode :=
  bind (int_field text) (fun mode_value =>
  let all_modes := WifiMode_members ++ WifiModeOnBoot_members in
  find_mode all_modes mode_value).

End WifiModes.

(** ** The recursive listing *)

(** What the consumer of [list_files_recursive] observes: the listing
    requests sent to the device and the entries yielded, in order. *)
Inductive event : Type :=
  | Request (dir : string)
  | Yield (f : FileInfo).

Inductive outcome : Type :=
  | Done
  | Raised (e : exn)
  | OutOfFuel.

Definition with_leading_sep (p : string) : string :=
  if Py.str_startswith p "/" then p else String.append "/" p.

(** The copy the loop makes of a file entry whose directory is not empty
    and has no leading separator. *)
Definition normalized (fileinfo : FileInfo) : FileInfo :=
  if negb (String.eqb (directory fileinfo) EmptyString)
     && negb (Py.str_startswith (directory fileinfo) "/")
  then mkFileInfo (String.append "/" (directory fileinfo))
                  (filename fileinfo)
                  (with_leading_sep (path fileinfo))
                  (size fileinfo) (attribute fileinfo) (datetime fileinfo)
  else fileinfo.

(** The [for] loop over the entries of one listing: the entries yielded and
    the queue after it. *)
Fixpoint scan_listing (filters : list (FileInfo -> bool))
    (entries : list FileInfo) (dirs_to_scan : list string)
  : list event * list string :=
  match entries with
  | [] => ([], dirs_to_scan)
  | fileinfo :: rest =>
      if directly (attribute fileinfo) then
        let subdir_path := with_leading_sep (path fileinfo) in
        scan_listing filters rest (dirs_to_scan ++ [subdir_path])
      else
        let fileinfo := normalized fileinfo in
        let '(events, queue) := scan_listing filters rest dirs_to_scan in
        if Py.all_of filters fileinfo
        then (Yield fileinfo :: events, queue)
        else (events, queue)
  end.

(** The [while] loop; [fuel] bounds the number of directories it takes from
    the queue. *)
Fixpoint scan_queue (fuel : nat) (device : string -> string)
    (filters : list (FileInfo -> bool)) (dirs_to_scan : list string)
  : list event * outcome :=
  match dirs_to_scan with
  | [] => ([], Done)
  | current_dir :: dirs_to_scan =>
      match fuel with
      | O => ([], OutOfFuel)
      | S fuel =>
          let '(entries, raised) := _split_file_list (device current_dir) in
          let '(events, dirs_to_scan) :=
            scan_listing filters entries dirs_to_scan in
          match raised with
          | Some e => (Request current_dir :: events, Raised e)
          | None =>
              let '(later, out) :=
                scan_queue fuel device filters dirs_to_scan in
              (Request current_dir :: events ++ later, out)
          end
      end
  end.

Definition list_files_recursive (fuel : nat) (device : string -> string)
    (filters : list (FileInfo -> bool)) (remote_dir : string)
  : list event * outcome :=
  scan_queue fuel device filters [with_leading_sep remote_dir].

(** ** Breadth-first order, level by level

    What the recursive listing is compared with: the directories a listing
    names, the files it holds, and the order that visits the start
    directory, then the directories it names, then those they name. *)

Definition subdirs_in (entries : list FileInfo) : list string :=
  List.map (fun f => with_leading_sep (path f))
           (List.filter (fun f => directly (attribute f)) entries).

Definition files_in (filters : list (FileInfo -> bool))
    (entries : list FileInfo) : list FileInfo :=
  List.filter (Py.all_of filters)
    (List.map normalized
       (List.filter (fun f => negb (directly (attribute f))) entries)).

Definition children (device : string -> string) (dir : string)
  : list string :=
  subdirs_in (fst (_split_file_list (device dir))).

(** One visit: the request, then the files of the listing. *)
Definition visit (device : string -> string)
    (filters : list (FileInfo -> bool)) (dir : string) : list event :=
  Request dir
  :: List.map Yield (files_in filters (fst (_split_file_list (device dir)))).

(** The listing of [dir] decodes to its end. *)
Definition listed (device : string -> string) (dir : string) : bool :=
  match snd (_split_file_list (device dir)) with
  | None => true
  | Some _ => false
  end.

Fixpoint level (device : string -> string) (depth : nat)
    (dirs : list string) : list string :=
  match depth with
  | O => dirs
  | S depth => level device depth (flat_map (children device) dirs)
  end.

Fixpoint bfs_order (device : string -> string) (depth : nat)
    (dirs : list string) : list string :=
  match depth with
  | O => []
  | S depth =>
      dirs ++ bfs_order device depth (flat_map (children device) dirs)
  end.

(** ** Notions used to compare the decoders *)

(** The fields a [FileInfo] shares with a [RawFileInfo]. *)
Definition to_raw (f : FileInfo) : Raw.RawFileInfo :=
  Raw.mkRawFileInfo (directory f) (filename f) (path f) (size f).

(** The number of commas in a line. *)
Definition commas (line : string) : nat :=
  List.length (List.filter (Ascii.eqb ","%char) (Py.chars line)).

(** A string made of the white space [int()] skips. *)
Definition blank (s : string) : bool := forallb Py.isspace (Py.chars s).

(** The directories requested in a run of events, in order. *)
Definition requests (events : list event) : list string :=
  flat_map (fun ev => match ev with
                      | Request dir => [dir]
                      | Yield _ => []
                      end) events.

(** * Properties *)

(** ** Bit fields *)

Lemma land_bit_testbit (a k : Z) :
  0 <= k -> truthy (Z.land a (Z.shiftl 1 k)) = Z.testbit a k.
Proof.
  intros Hk. unfold truthy.
  rewrite Z.shiftl_1_l.
  assert (Hland : Z.land a (2 ^ k) = if Z.testbit a k then 2 ^ k else 0).
  { apply Z.bits_inj'. intros i Hi.
    rewrite Z.land_spec, Z.pow2_bits_eqb by assumption.
    destruct (Z.eqb_spec k i) as [->|Hne].
    - rewrite andb_true_r. destruct (Z.testbit a i); simpl.
      + symmetry. apply Z.pow2_bits_true. assumption.
      + symmetry. apply Z.bits_0.
    - rewrite andb_false_r. destruct (Z.testbit a k).
      + symmetry. apply Z.pow2_bits_false. assumption.
      + symmetry. apply Z.bits_0. }
  rewrite Hland. destruct (Z.testbit a k); simpl.
  - assert (0 < 2 ^ k) by (apply Z.pow_pos_nonneg; lia).
    destruct (Z.eqb_spec (2 ^ k) 0); [lia | reflexivity].
  - reflexivity.
Qed.

Lemma month_field (date_val : Z) :
  Z.shiftr (Z.land date_val (Z.shiftl 15 5)) 5 = (date_val / 2 ^ 5) mod 2 ^ 4.
Proof.
  rewrite Z.shiftr_land.
  change (Z.shiftr (Z.shiftl 15 5) 5) with (Z.ones 4).
  rewrite Z.land_ones by lia.
  rewrite Z.shiftr_div_pow2 by lia. reflexivity.
Qed.

Lemma low_bits (a n : Z) : 0 <= n -> Z.land a (Z.ones n) = a mod 2 ^ n.
Proof. apply Z.land_ones. Qed.

(** The fields [_decode_time] computes, in arithmetic form. *)
Lemma decode_time_unfold (date_val time_val : Z) :
  _decode_time date_val time_val =
  let year := date_val / 2 ^ 9 + 1980 in
  let month := (date_val / 2 ^ 5) mod 2 ^ 4 in
  let day := date_val mod 2 ^ 5 in
  let hour := time_val / 2 ^ 11 in
  let minute := (time_val / 2 ^ 5) mod 2 ^ 6 in
  let second := time_val mod 2 ^ 5 * 2 in
  match arrow_get year month day hour minute second TzLocal with
  | Err ValueError =>
      arrow_get (Z.max 1980 year) (Z.min (Z.max 1 month) 12) (Z.max 1 day)
                hour minute second TzUTC
  | decoded => decoded
  end.
Proof.
  unfold _decode_time.
  rewrite month_field.
  rewrite !Z.shiftr_div_pow2 by lia.
  change 31 with (Z.ones 5). change 63 with (Z.ones 6).
  rewrite !low_bits by lia.
  reflexivity.
Qed.

Lemma c_int_small (z : Z) : - 2 ^ 31 <= z < 2 ^ 31 -> Datetime.c_int z = true.
Proof.
  intros H. unfold Datetime.c_int.
  apply andb_true_intro. split; [apply Z.leb_le | apply Z.ltb_lt]; lia.
Qed.

Lemma arrow_get_small (y m d h mi s : Z) (zone : tzinfo) :
  - 2 ^ 31 <= y < 2 ^ 31 -> - 2 ^ 31 <= m < 2 ^ 31 ->
  - 2 ^ 31 <= d < 2 ^ 31 -> - 2 ^ 31 <= h < 2 ^ 31 ->
  - 2 ^ 31 <= mi < 2 ^ 31 -> - 2 ^ 31 <= s < 2 ^ 31 ->
  arrow_get y m d h mi s zone =
  if Datetime.valid y m d h mi s then Ok (mkArrow y m d h mi s zone)
  else Err ValueError.
Proof.
  intros. unfold arrow_get. simpl forallb.
  rewrite !c_int_small by assumption. reflexivity.
Qed.

(** A packed date or time, taken apart. *)
Lemma unpack3 (a b c p q : Z) :
  0 <= p -> 0 <= q -> 0 <= b < 2 ^ p -> 0 <= c < 2 ^ q ->
  let v := a * 2 ^ (p + q) + b * 2 ^ q + c in
  v / 2 ^ (p + q) = a /\ (v / 2 ^ q) mod 2 ^ p = b /\ v mod 2 ^ q = c.
Proof.
  intros Hp Hq Hb Hc v. subst v.
  assert (0 < 2 ^ p) by (apply Z.pow_pos_nonneg; lia).
  assert (0 < 2 ^ q) by (apply Z.pow_pos_nonneg; lia).
  rewrite Z.pow_add_r by assumption.
  assert (Hlow : (a * (2 ^ p * 2 ^ q) + b * 2 ^ q + c) / 2 ^ q = a * 2 ^ p + b).
  { replace (a * (2 ^ p * 2 ^ q) + b * 2 ^ q + c)
      with (c + (a * 2 ^ p + b) * 2 ^ q) by ring.
    rewrite Z.div_add by lia. rewrite Z.div_small by lia. lia. }
  repeat split.
  - replace ((a * (2 ^ p * 2 ^ q) + b * 2 ^ q + c) / (2 ^ p * 2 ^ q))
      with ((a * (2 ^ p * 2 ^ q) + b * 2 ^ q + c) / 2 ^ q / 2 ^ p)
      by (rewrite Z.div_div by lia; f_equal; ring).
    rewrite Hlow.
    rewrite Z.add_comm, Z.div_add by lia. rewrite Z.div_small by lia. lia.
  - rewrite Hlow. rewrite Z.add_comm, Z.mod_add by lia.
    apply Z.mod_small. lia.
  - replace (a * (2 ^ p * 2 ^ q) + b * 2 ^ q + c)
      with (c + (a * 2 ^ p + b) * 2 ^ q) by ring.
    rewrite Z.mod_add by lia. apply Z.mod_small. lia.
Qed.

Lemma valid_iff (y m d h mi s : Z) :
  Datetime.valid y m d h mi s = true <->
  1 <= y <= 9999 /\ 1 <= m <= 12 /\ 1 <= d <= Datetime.days_in_month y m
  /\ 0 <= h <= 23 /\ 0 <= mi <= 59 /\ 0 <= s <= 59.
Proof.
  unfold Datetime.valid. rewrite !andb_true_iff, !Z.leb_le. tauto.
Qed.

Lemma valid_false_iff (y m d h mi s : Z) :
  Datetime.valid y m d h mi s = false <->
  ~ (1 <= y <= 9999 /\ 1 <= m <= 12 /\ 1 <= d <= Datetime.days_in_month y m
     /\ 0 <= h <= 23 /\ 0 <= mi <= 59 /\ 0 <= s <= 59).
Proof.
  rewrite <- valid_iff. destruct (Datetime.valid y m d h mi s); split;
    intros; congruence.
Qed.

(** ** [_decode_attribute] *)

(** C6. For every 6-bit attribute value, [_decode_attribute] gives the six
    flags archive, directly, volume, system_file, hidden_file, read_only as
    the bits 5, 4, 3, 2, 1, 0 of the value (most significant first), so that
    the flags determine the value; 0b100000 gives only archive, and 0b000001
    gives only read_only. *)
Theorem decode_attribute_msb_first (attr_val : Z) :
  0 <= attr_val < 2 ^ 6 ->
  let a := _decode_attribute attr_val in
  a = mkAttrInfo (Z.testbit attr_val 5) (Z.testbit attr_val 4)
                 (Z.testbit attr_val 3) (Z.testbit attr_val 2)
                 (Z.testbit attr_val 1) (Z.testbit attr_val 0)
  /\ attr_val = 32 * Z.b2z (archive a) + 16 * Z.b2z (directly a)
                + 8 * Z.b2z (volume a) + 4 * Z.b2z (system_file a)
                + 2 * Z.b2z (hidden_file a) + Z.b2z (read_only a)
  /\ _decode_attribute 32 = mkAttrInfo true false false false false false
  /\ _decode_attribute 1 = mkAttrInfo false false false false false true.
Proof.
  intros Hrange a.
  assert (Hbits : a = mkAttrInfo (Z.testbit attr_val 5) (Z.testbit attr_val 4)
                 (Z.testbit attr_val 3) (Z.testbit attr_val 2)
                 (Z.testbit attr_val 1) (Z.testbit attr_val 0)).
  { subst a. unfold _decode_attribute, bit_positions. cbn [rev app List.map nth].
    rewrite !land_bit_testbit by lia. reflexivity. }
  split; [exact Hbits |]. split; [| split; reflexivity].
  rewrite Hbits. cbn [archive directly volume system_file hidden_file read_only].
  assert (Hn : exists n : nat, attr_val = Z.of_nat n /\ (n < 64)%nat).
  { exists (Z.to_nat attr_val). change (2 ^ 6) with 64 in Hrange. lia. }
  destruct Hn as (n & -> & Hn).
  do 64 (destruct n as [|n]; [vm_compute; reflexivity |]).
  lia.
Qed.

Lemma decode_attribute_msb_first_witness :
  _decode_attribute 16 = mkAttrInfo false true false false false false.
Proof.
  assert (H : 0 <= 16 < 2 ^ 6) by (change (2 ^ 6) with 64; lia).
  exact (proj1 (decode_attribute_msb_first 16 H)).
Defined.

(** The same holds for every integer, whatever its width. *)
Lemma decode_attribute_testbit (attr_val : Z) :
  directly (_decode_attribute attr_val) = Z.testbit attr_val 4.
Proof.
  unfold _decode_attribute, bit_positions. cbn [rev app List.map nth directly].
  apply land_bit_testbit. lia.
Qed.

(** ** [_decode_time] *)

(** C5. A date code made of the fields y (bits 15..9), m (bits 8..5) and d
    (bits 4..0) and a time code made of h (bits 15..11), mi (bits 10..5) and
    s (bits 4..0) decode to the year 1980 + y, the month m, the day d, the
    hour h, the minute mi and the second 2 * s, in the local time zone when
    these form a date and time; otherwise the clamped values are tried
    without the zone. The date code 0b0000000_0001_00001 with the time code
    0 decodes to 1980-01-01 00:00:00, local time. *)
Theorem decode_time_fat_layout (y m d h mi s : Z) :
  0 <= y < 2 ^ 7 -> 0 <= m < 2 ^ 4 -> 0 <= d < 2 ^ 5 ->
  0 <= h < 2 ^ 5 -> 0 <= mi < 2 ^ 6 -> 0 <= s < 2 ^ 5 ->
  _decode_time (y * 2 ^ 9 + m * 2 ^ 5 + d) (h * 2 ^ 11 + mi * 2 ^ 5 + s) =
    (if Datetime.valid (1980 + y) m d h mi (2 * s)
     then Ok (mkArrow (1980 + y) m d h mi (2 * s) TzLocal)
     else arrow_get (1980 + y) (Z.min (Z.max 1 m) 12) (Z.max 1 d)
                    h mi (2 * s) TzUTC)
  /\ _decode_time (0 * 2 ^ 9 + 1 * 2 ^ 5 + 1) (0 * 2 ^ 11 + 0 * 2 ^ 5 + 0) =
     Ok (mkArrow 1980 1 1 0 0 0 TzLocal).
Proof.
  intros Hy Hm Hd Hh Hmi Hs. split; [| reflexivity].
  rewrite decode_time_unfold.
  destruct (unpack3 y m d 4 5) as (Ey & Em & Ed); try lia.
  destruct (unpack3 h mi s 6 5) as (Eh & Emi & Es); try lia.
  change (4 + 5) with 9 in *. change (6 + 5) with 11 in *.
  cbv zeta. rewrite Ey, Em, Ed, Eh, Emi, Es.
  replace (y + 1980) with (1980 + y) by lia.
  replace (s * 2) with (2 * s) by lia.
  change (2 ^ 7) with 128 in *. change (2 ^ 4) with 16 in *.
  change (2 ^ 5) with 32 in *. change (2 ^ 6) with 64 in *.
  rewrite (arrow_get_small (1980 + y) m d h mi (2 * s) TzLocal)
    by (change (2 ^ 31) with 2147483648; lia).
  destruct (Datetime.valid (1980 + y) m d h mi (2 * s)); [reflexivity |].
  rewrite Z.max_r by lia. reflexivity.
Qed.

Lemma decode_time_fat_layout_witness :
  _decode_time (36 * 2 ^ 9 + 2 * 2 ^ 5 + 29) (13 * 2 ^ 11 + 37 * 2 ^ 5 + 21)
  = Ok (mkArrow 2016 2 29 13 37 42 TzLocal).
Proof.
  refine (proj1 (decode_time_fat_layout 36 2 29 13 37 21 _ _ _ _ _ _));
    vm_compute; split; congruence.
Defined.

(** C1, as stated, fails: the fallback clamps the date fields only. The
    16-bit codes 33 (1980-01-01) and 49152 (hour field 24) make both the
    first construction and the clamped one raise. *)
Lemma decode_time_raises_on_hour_24 :
  0 <= 33 < 2 ^ 16 /\ 0 <= 49152 < 2 ^ 16
  /\ _decode_time 33 49152 = Err ValueError.
Proof. repeat split; reflexivity || (vm_compute; congruence). Qed.

(** C1, amended. For every pair of 16-bit codes, when the first
    construction fails the fallback clamps the year to at least 1980, the
    month into 1..12 and the day to at least 1. [_decode_time] then returns
    the timestamp of the clamped fields (local when nothing was clamped,
    without zone otherwise) provided the hour is at most 23, the minute at
    most 59, the second at most 59 and the clamped day exists in the clamped
    month; with an hour above 23, a minute above 59 or a second above 59 it
    raises [ValueError]. *)
Theorem decode_time_clamped (date_val time_val : Z) :
  0 <= date_val < 2 ^ 16 -> 0 <= time_val < 2 ^ 16 ->
  let raw_month := (date_val / 2 ^ 5) mod 2 ^ 4 in
  let raw_day := date_val mod 2 ^ 5 in
  let year := Z.max 1980 (1980 + date_val / 2 ^ 9) in
  let month := Z.min (Z.max 1 raw_month) 12 in
  let day := Z.max 1 raw_day in
  let hour := time_val / 2 ^ 11 in
  let minute := (time_val / 2 ^ 5) mod 2 ^ 6 in
  let second := 2 * (time_val mod 2 ^ 5) in
  let zone :=
    if (1 <=? raw_month) && (raw_month <=? 12) && (1 <=? raw_day)
    then TzLocal else TzUTC in
  (hour <= 23 -> minute <= 59 -> second <= 59 ->
   day <= Datetime.days_in_month year month ->
   _decode_time date_val time_val =
     Ok (mkArrow year month day hour minute second zone))
  /\ (23 < hour \/ 59 < minute \/ 59 < second ->
      _decode_time date_val time_val = Err ValueError).
Proof.
  intros Hd Ht. cbv zeta.
  rewrite decode_time_unfold. cbv zeta.
  change (2 ^ 16) with 65536 in *.
  change (2 ^ 5) with 32. change (2 ^ 4) with 16. change (2 ^ 9) with 512.
  change (2 ^ 11) with 2048. change (2 ^ 6) with 64.
  set (y := date_val / 512). set (m := (date_val / 32) mod 16).
  set (d := date_val mod 32). set (h := time_val / 2048).
  set (mi := (time_val / 32) mod 64). set (s := time_val mod 32).
  assert (0 <= y < 128)
    by (subst y; split;
        [apply Z.div_pos | apply Z.div_lt_upper_bound]; lia).
  assert (0 <= m < 16) by (subst m; apply Z.mod_pos_bound; lia).
  assert (0 <= d < 32) by (subst d; apply Z.mod_pos_bound; lia).
  assert (0 <= h < 32)
    by (subst h; split;
        [apply Z.div_pos | apply Z.div_lt_upper_bound]; lia).
  assert (0 <= mi < 64) by (subst mi; apply Z.mod_pos_bound; lia).
  assert (0 <= s < 32) by (subst s; apply Z.mod_pos_bound; lia).
  clearbody y m d h mi s.
  replace (y + 1980) with (1980 + y) by lia.
  replace (s * 2) with (2 * s) by lia.
  rewrite !arrow_get_small by (change (2 ^ 31) with 2147483648; lia).
  split.
  - intros Hh Hmi Hs Hday.
    destruct (Datetime.valid (1980 + y) m d h mi (2 * s)) eqn:Hvalid.
    + apply valid_iff in Hvalid.
      replace (Z.max 1980 (1980 + y)) with (1980 + y) by lia.
      replace (Z.min (Z.max 1 m) 12) with m by lia.
      replace (Z.max 1 d) with d by lia.
      replace ((1 <=? m) && (m <=? 12) && (1 <=? d)) with true; [reflexivity |].
      symmetry. rewrite !andb_true_iff, !Z.leb_le. lia.
    + assert (Hfb : Datetime.valid (Z.max 1980 (1980 + y))
                      (Z.min (Z.max 1 m) 12) (Z.max 1 d) h mi (2 * s) = true).
      { apply valid_iff. lia. }
      rewrite Hfb.
      replace ((1 <=? m) && (m <=? 12) && (1 <=? d)) with false; [reflexivity |].
      symmetry. apply valid_false_iff in Hvalid.
      destruct ((1 <=? m) && (m <=? 12) && (1 <=? d)) eqn:E; [| reflexivity].
      rewrite !andb_true_iff, !Z.leb_le in E. exfalso. apply Hvalid.
      replace (Z.max 1980 (1980 + y)) with (1980 + y) in Hday by lia.
      replace (Z.min (Z.max 1 m) 12) with m in Hday by lia.
      lia.
  - intros Hbad.
    assert (Hfirst : Datetime.valid (1980 + y) m d h mi (2 * s) = false).
    { apply valid_false_iff. lia. }
    assert (Hsecond : Datetime.valid (Z.max 1980 (1980 + y))
                   (Z.min (Z.max 1 m) 12) (Z.max 1 d) h mi (2 * s) = false).
    { apply valid_false_iff. lia. }
    rewrite Hfirst, Hsecond. reflexivity.
Qed.

Lemma decode_time_clamped_witness :
  _decode_time (13 * 32) 0 = Ok (mkArrow 1980 12 1 0 0 0 TzUTC)
  /\ _decode_time 33 (2 ^ 16 - 1) = Err ValueError.
Proof.
  split.
  - refine (proj1 (decode_time_clamped (13 * 32) 0 _ _) _ _ _ _);
      vm_compute; try split; congruence.
  - refine (proj2 (decode_time_clamped 33 (2 ^ 16 - 1) _ _) _);
      [vm_compute; split; congruence .. |].
    left. vm_compute. reflexivity.
Defined.

(** ** [memory_changed] *)

(** C2. [memory_changed] returns true when the response text is "1", false
    when the text parses as an integer other than 1, and raises an
    [IOError] carrying the no-connection message exactly when the text does
    not parse as an integer. *)
Theorem memory_changed_cases (text : string) :
  (text = "1"%string -> memory_changed text = Ok true)
  /\ (forall n, Py.int text = Some n -> n <> 1 ->
      memory_changed text = Ok false)
  /\ ((exists e, memory_changed text = Err e) <-> Py.int text = None)
  /\ (forall e, memory_changed text = Err e ->
      e = IOError memory_changed_message
      /\ Py.str_startswith memory_changed_message
           "Likely no FlashAir connection" = true).
Proof.
  unfold memory_changed. repeat split.
  - intros ->. reflexivity.
  - intros n Hn Hne. rewrite Hn. f_equal. apply Z.eqb_neq. exact Hne.
  - intros [e He]. destruct (Py.int text); [discriminate | reflexivity].
  - intros ->. eexists. reflexivity.
  - destruct (Py.int text); congruence.
Qed.

Example memory_changed_0 : memory_changed "0" = Ok false.
Proof. reflexivity. Qed.

Example memory_changed_text :
  memory_changed "<html>" = Err (IOError memory_changed_message).
Proof. reflexivity. Qed.

(** ** [get_wifi_mode] *)

Lemma find_mode_ok (all_modes : list Mode) (n : Z) (mode : Mode) :
  find_mode all_modes n = Ok mode -> In mode all_modes /\ value mode = n.
Proof.
  induction all_modes as [|m rest IH]; simpl; [discriminate |].
  destruct (Z.eqb_spec (value m) n) as [E|E].
  - intros [= <-]. auto.
  - intros H. destruct (IH H). auto.
Qed.

Lemma find_mode_err (all_modes : list Mode) (n : Z) (e : exn) :
  find_mode all_modes n = Err e ->
  e = ValueError /\ forall mode, In mode all_modes -> value mode <> n.
Proof.
  induction all_modes as [|m rest IH]; simpl.
  - intros [= <-]. split; [reflexivity | tauto].
  - destruct (Z.eqb_spec (value m) n) as [E|E]; [discriminate |].
    intros H. destruct (IH H) as [He Hall]. split; [exact He |].
    intros mode [<- | Hin]; auto.
Qed.

(** C7. When the response text parses as the integer n, [get_wifi_mode]
    returns a member of [WifiMode] or [WifiModeOnBoot] whose value is n (the
    member, when the values are distinct), and raises [ValueError] exactly
    when no member of either enumeration has the value n. *)
Theorem get_wifi_mode_lookup (WifiMode_members WifiModeOnBoot_members : list Mode)
    (text : string) (n : Z) :
  Py.int text = Some n ->
  let all_modes := WifiMode_members ++ WifiModeOnBoot_members in
  let answer := get_wifi_mode WifiMode_members WifiModeOnBoot_members text in
  (forall mode, answer = Ok mode -> In mode all_modes /\ value mode = n)
  /\ (forall mode, In mode all_modes -> value mode = n ->
      (forall other, In other all_modes -> value other = n -> other = mode) ->
      answer = Ok mode)
  /\ ((exists e, answer = Err e) <->
      forall mode, In mode all_modes -> value mode <> n)
  /\ (forall e, answer = Err e -> e = ValueError).
Proof.
  intros Hn all_modes answer. subst answer. unfold get_wifi_mode, int_field.
  rewrite Hn. simpl bind. fold all_modes.
  destruct (find_mode all_modes n) as [found | e] eqn:Hfind.
  - destruct (find_mode_ok _ _ _ Hfind) as [Hin Hval].
    repeat split.
    + injection H as <-. exact Hin.
    + injection H as <-. exact Hval.
    + intros mode Hmode Hv Huniq. f_equal. apply Huniq; assumption.
    + intros [e He]. discriminate.
    + intros Hnone. exfalso. exact (Hnone found Hin Hval).
    + discriminate.
  - destruct (find_mode_err _ _ _ Hfind) as [-> Hnone].
    repeat split; try discriminate.
    + intros mode Hmode Hv _. exfalso. exact (Hnone mode Hmode Hv).
    + intros _. exact Hnone.
    + eexists. reflexivity.
    + intros e [= <-]. reflexivity.
Qed.

Lemma get_wifi_mode_lookup_witness :
  get_wifi_mode [mkMode WifiMode "access_point" 4; mkMode WifiMode "station" 5]
                [mkMode WifiModeOnBoot "access_point" 0] "5"
  = Ok (mkMode WifiMode "station" 5).
Proof.
  refine (proj1 (proj2 (get_wifi_mode_lookup _ _ "5" 5 eq_refl))
            (mkMode WifiMode "station" 5) _ eq_refl _).
  - simpl. auto.
  - intros other Hin Hv. simpl in Hin.
    destruct Hin as [<- | [<- | [<- | []]]]; (discriminate || reflexivity).
Defined.

(** ** The line decoders *)

Section DecodeLines.

Context {A : Type} (decode : string -> option (result A)).

Lemma decode_lines_ok (lines : list string) :
  Forall (fun line => raises decode line = false) lines ->
  decode_lines decode lines = (entries_of decode lines, None).
Proof.
  induction 1 as [|line lines Hline _ IH]; [reflexivity |].
  unfold raises in Hline. simpl. rewrite IH.
  destruct (decode line) as [[f | e] |]; [reflexivity | discriminate | reflexivity].
Qed.

Lemma decode_lines_raise (pre post : list string) (line : string) (e : exn) :
  Forall (fun line => raises decode line = false) pre ->
  decode line = Some (Err e) ->
  decode_lines decode (pre ++ line :: post) = (entries_of decode pre, Some e).
Proof.
  intros Hpre Hline.
  induction Hpre as [|l pre Hl _ IH]; simpl.
  - rewrite Hline. reflexivity.
  - unfold raises in Hl. rewrite IH.
    destruct (decode l) as [[f | e'] |]; [reflexivity | discriminate | reflexivity].
Qed.

(** A generator over lines of which one raises does raise. *)
Lemma decode_lines_raises (lines : list string) (line : string) :
  In line lines -> raises decode line = true ->
  exists e, snd (decode_lines decode lines) = Some e.
Proof.
  intros Hin Hline. induction lines as [|l lines IH]; [destruct Hin |].
  simpl. destruct (decode l) as [[f | e'] |] eqn:Hl.
  - destruct Hin as [-> | Hin].
    + unfold raises in Hline. rewrite Hl in Hline. discriminate.
    + destruct (IH Hin) as [e He].
      destruct (decode_lines decode lines) as [fs r]. simpl in *. eauto.
  - simpl. eauto.
  - destruct Hin as [-> | Hin]; [| auto].
    unfold raises in Hline. rewrite Hl in Hline. discriminate.
Qed.

End DecodeLines.

Lemma in_entries_of {A : Type} (decode : string -> option (result A))
    (lines : list string) (f : A) :
  In f (entries_of decode lines) <->
  exists line, In line lines /\ decode line = Some (Ok f).
Proof.
  unfold entries_of. rewrite in_flat_map. split.
  - intros (line & Hin & Hf). exists line. split; [exact Hin |].
    destruct (decode line) as [[g | e] |]; simpl in Hf; try tauto.
    destruct Hf as [-> | []]. reflexivity.
  - intros (line & Hin & Hf). exists line. split; [exact Hin |].
    rewrite Hf. simpl. auto.
Qed.

Lemma in_decode_lines {A : Type} (decode : string -> option (result A))
    (lines : list string) (f : A) :
  In f (fst (decode_lines decode lines)) ->
  exists line, In line lines /\ decode line = Some (Ok f).
Proof.
  induction lines as [|l lines IH]; simpl; [tauto |].
  destruct (decode l) as [[g | e] |] eqn:Hl.
  - destruct (decode_lines decode lines) as [fs r]. simpl in *.
    intros [<- | Hin]; [eauto |].
    destruct (IH Hin) as (line & ? & ?). eauto.
  - simpl. tauto.
  - intros Hin. destruct (IH Hin) as (line & ? & ?). eauto.
Qed.

(** Only the lines that do not split into six groups are passed over. *)
Lemma decode_line_none (line : string) :
  decode_line line = None <-> length (Py.split line ",") <> 6%nat.
Proof.
  unfold decode_line.
  destruct (Py.split line ",") as [|a [|b [|c [|d [|e [|f [|g l]]]]]]];
    simpl; split; intros H; congruence || lia.
Qed.

Lemma decode_line_raw_none (line : string) :
  decode_line_raw line = None <-> length (Py.split line ",") <> 6%nat.
Proof.
  unfold decode_line_raw.
  destruct (Py.split line ",") as [|a [|b [|c [|d [|e [|f [|g l]]]]]]];
    simpl; split; intros H; congruence || lia.
Qed.

Lemma decode_entry_bad_field (directory filename s1 s2 s3 s4 : string) :
  Py.int s1 = None \/ Py.int s2 = None \/ Py.int s3 = None \/ Py.int s4 = None ->
  decode_entry directory filename s1 s2 s3 s4 = Err ValueError.
Proof.
  unfold decode_entry, int_field.
  intros Hbad.
  destruct (Py.int s1); simpl; [| reflexivity].
  destruct (Py.int s2); simpl; [| reflexivity].
  destruct (Py.int s3); simpl; [| reflexivity].
  destruct (Py.int s4); simpl; [| reflexivity].
  destruct Hbad as [H | [H | [H | H]]]; discriminate.
Qed.

(** A line [_split_file_list] decodes is one [_split_file_list_raw]
    decodes. *)
Lemma raises_raw (line : string) :
  raises decode_line line = false -> raises decode_line_raw line = false.
Proof.
  unfold raises, decode_line, decode_line_raw.
  destruct (Py.split line ",") as [|a [|b [|c [|d [|e [|f [|g l]]]]]]];
    try reflexivity.
  unfold decode_entry, decode_entry_raw, int_field.
  destruct (Py.int c); simpl; [reflexivity | discriminate].
Qed.

(** ** [list_files] and [list_files_raw] *)

(** C4, as stated, fails: in the text below the second line is a
    well-formed line of six fields that is no directory, and [list_files]
    without filters yields nothing, because the first line has six groups
    and a size that is no integer. *)
Lemma list_files_stops_at_bad_line :
  let text := ("d,bad,x,0,0,0" +:+ CRLF +:+ "d,f,1,0,33,0")%string in
  Py.split text CRLF = ["d,bad,x,0,0,0"; "d,f,1,0,33,0"]%string
  /\ (exists f, decode_line "d,f,1,0,33,0" = Some (Ok f)
                /\ directly (attribute f) = false)
  /\ list_files [] text = ([], Some ValueError).
Proof.
  repeat split.
  eexists. split; reflexivity.
Qed.

(** C4, amended. For every response text in which no line of six groups
    fails to decode, and every set of filters, [list_files] yields exactly
    the decoded entries of the lines of six groups that are no directory and
    that every filter accepts (all that are no directory, without filters),
    in the order of the lines; [list_files_raw] does the same without
    leaving out the directories; lines that do not split into six groups
    give no entry. *)
Theorem list_files_yields (filters : list (FileInfo -> bool))
    (raw_filters : list (Raw.RawFileInfo -> bool)) (text : string) :
  let lines := Py.split text CRLF in
  Forall (fun line => raises decode_line line = false) lines ->
  list_files filters text =
    (List.filter (fun f => negb (directly (attribute f))
                           && forallb (fun filt => filt f) filters)
                 (entries_of decode_line lines), None)
  /\ list_files [] text =
    (List.filter (fun f => negb (directly (attribute f)))
                 (entries_of decode_line lines), None)
  /\ list_files_raw raw_filters text =
    (List.filter (fun f => forallb (fun filt => filt f) raw_filters)
                 (entries_of decode_line_raw lines), None)
  /\ (forall line, length (Py.split line ",") <> 6%nat ->
      entries_of decode_line [line] = []
      /\ entries_of decode_line_raw [line] = []).
Proof.
  intros lines Hok.
  assert (Hraw : Forall (fun line => raises decode_line_raw line = false) lines).
  { eapply Forall_impl; [exact Hok |]. intros l. apply raises_raw. }
  unfold list_files, list_files_raw, _split_file_list, _split_file_list_raw.
  fold lines. rewrite (decode_lines_ok decode_line lines Hok).
  rewrite (decode_lines_ok decode_line_raw lines Hraw).
  repeat split.
  - f_equal. apply filter_ext. intros f. unfold keeps, Py.all_of. simpl.
    apply andb_true_r.
  - apply decode_line_none in H. unfold entries_of. simpl. rewrite H. reflexivity.
  - apply decode_line_raw_none in H. unfold entries_of. simpl. rewrite H.
    reflexivity.
Qed.

Lemma list_files_yields_witness :
  let text := ("WLANSD_FILELIST" +:+ CRLF +:+ "/DCIM,100.JPG,42,32,33,0"
               +:+ CRLF +:+ "/DCIM,SUB,0,16,33,0" +:+ CRLF)%string in
  exists f, list_files [] text = ([f], None) /\ filename f = "100.JPG"%string.
Proof.
  intros text.
  assert (Hok : Forall (fun line => raises decode_line line = false)
                       (Py.split text CRLF)).
  { replace (Py.split text CRLF)
      with ["WLANSD_FILELIST"; "/DCIM,100.JPG,42,32,33,0";
            "/DCIM,SUB,0,16,33,0"; EmptyString]%string
      by (vm_compute; reflexivity).
    repeat (constructor; [vm_compute; reflexivity |]). constructor. }
  eexists. split.
  - rewrite (proj1 (proj2 (list_files_yields [] [] text Hok))). reflexivity.
  - reflexivity.
Defined.

(** C9. A response line that splits into six groups and whose size,
    attribute, date or time field is no integer for [int()] makes
    [list_files] raise: decoding that line raises [ValueError], so consuming
    [list_files] up to it ends in an exception, which is that [ValueError]
    when the lines before it decode. [list_files_raw] does so for the size
    field. Only a line with another number of groups is passed over. *)
Theorem bad_field_raises (filters : list (FileInfo -> bool))
    (raw_filters : list (Raw.RawFileInfo -> bool))
    (text line directory filename s1 s2 s3 s4 : string) :
  In line (Py.split text CRLF) ->
  Py.split line "," = [directory; filename; s1; s2; s3; s4] ->
  Py.int s1 = None \/ Py.int s2 = None \/ Py.int s3 = None \/ Py.int s4 = None ->
  decode_line line = Some (Err ValueError)
  /\ (exists e, snd (list_files filters text) = Some e)
  /\ (forall pre post, Py.split text CRLF = pre ++ line :: post ->
      Forall (fun l => raises decode_line l = false) pre ->
      list_files filters text =
        (List.filter (keeps filters) (entries_of decode_line pre),
         Some ValueError))
  /\ (Py.int s1 = None ->
      decode_line_raw line = Some (Err ValueError)
      /\ (exists e, snd (list_files_raw raw_filters text) = Some e)
      /\ (forall pre post, Py.split text CRLF = pre ++ line :: post ->
          Forall (fun l => raises decode_line_raw l = false) pre ->
          list_files_raw raw_filters text =
            (List.filter (Py.all_of raw_filters)
                         (entries_of decode_line_raw pre),
             Some ValueError)))
  /\ (forall l, decode_line l = None <-> length (Py.split l ",") <> 6%nat)
  /\ (forall l, decode_line_raw l = None <-> length (Py.split l ",") <> 6%nat).
Proof.
  intros Hin Hgroups Hbad.
  assert (Hline : decode_line line = Some (Err ValueError)).
  { unfold decode_line. rewrite Hgroups. f_equal.
    apply decode_entry_bad_field. exact Hbad. }
  split; [exact Hline |]. split; [| split; [| split; [| split]]].
  - destruct (decode_lines_raises decode_line _ line Hin) as [e He].
    { unfold raises. rewrite Hline. reflexivity. }
    exists e. unfold list_files, _split_file_list.
    destruct (decode_lines decode_line (Py.split text CRLF)). exact He.
  - intros pre post Hsplit Hpre. unfold list_files, _split_file_list.
    rewrite Hsplit, (decode_lines_raise decode_line pre post line ValueError Hpre Hline).
    reflexivity.
  - intros Hsize.
    assert (Hraw : decode_line_raw line = Some (Err ValueError)).
    { unfold decode_line_raw. rewrite Hgroups.
      unfold decode_entry_raw, int_field. rewrite Hsize. reflexivity. }
    split; [exact Hraw |]. split.
    + destruct (decode_lines_raises decode_line_raw _ line Hin) as [e He].
      { unfold raises. rewrite Hraw. reflexivity. }
      exists e. unfold list_files_raw, _split_file_list_raw.
      destruct (decode_lines decode_line_raw (Py.split text CRLF)). exact He.
    + intros pre post Hsplit Hpre. unfold list_files_raw, _split_file_list_raw.
      rewrite Hsplit, (decode_lines_raise decode_line_raw pre post line ValueError Hpre Hraw).
      reflexivity.
  - exact decode_line_none.
  - exact decode_line_raw_none.
Qed.

Lemma bad_field_raises_witness :
  let text := ("/DCIM,100.JPG,42,32,33,0" +:+ CRLF
               +:+ "/DCIM,101.JPG,4k,32,33,0" +:+ CRLF)%string in
  exists f, list_files [] text = ([f], Some ValueError)
            /\ filename f = "100.JPG"%string.
Proof.
  intros text.
  pose proof (bad_field_raises [] [] text "/DCIM,101.JPG,4k,32,33,0"
                "/DCIM" "101.JPG" "4k" "32" "33" "0") as H.
  destruct H as (_ & _ & H & _).
  - vm_compute. auto.
  - reflexivity.
  - left. reflexivity.
  - specialize (H ["/DCIM,100.JPG,42,32,33,0"%string] [EmptyString] eq_refl).
    eexists. split.
    + rewrite H; [reflexivity |].
      constructor; [vm_compute; reflexivity | constructor].
    + reflexivity.
Defined.

(** ** [map_files] *)

Lemma dict_by_filename_snoc (files : list FileInfo) (f : FileInfo) :
  dict_by_filename (files ++ [f]) = <[filename f := f]> (dict_by_filename files).
Proof. unfold dict_by_filename. rewrite fold_left_app. reflexivity. Qed.

Lemma dict_by_filename_dom (files : list FileInfo) :
  dom (dict_by_filename files) = list_to_set (List.map filename files).
Proof.
  induction files as [|f files IH] using rev_ind; [reflexivity |].
  rewrite dict_by_filename_snoc, dom_insert_L, IH.
  rewrite List.map_app, list_to_set_app_L. simpl.
  rewrite (right_id_L ∅ (∪)). apply (comm_L (∪)).
Qed.

Lemma dict_by_filename_last (pre post : list FileInfo) (f : FileInfo) :
  (forall g, In g post -> filename g <> filename f) ->
  dict_by_filename (pre ++ f :: post) !! filename f = Some f.
Proof.
  induction post as [|g post IH] using rev_ind; intros Hpost.
  - rewrite dict_by_filename_snoc. apply lookup_insert_eq.
  - replace (pre ++ f :: post ++ [g]) with ((pre ++ f :: post) ++ [g])
      by (rewrite <- app_assoc; reflexivity).
    rewrite dict_by_filename_snoc, lookup_insert_ne.
    + apply IH. intros h Hh. apply Hpost. apply in_or_app. auto.
    + apply Hpost. apply in_or_app. simpl. auto.
Qed.

(** C8. When [map_files] returns a mapping, its keys are the file names of
    the entries [list_files] yields for the same filters and response, and
    the entry stored under a name is the last one yielded with that name. *)
Theorem map_files_keys (filters : list (FileInfo -> bool)) (text : string)
    (d : gmap string FileInfo) :
  map_files filters text = Ok d ->
  let files := fst (list_files filters text) in
  dom d = list_to_set (List.map filename files)
  /\ (forall pre f post, files = pre ++ f :: post ->
      (forall g, In g post -> filename g <> filename f) ->
      d !! filename f = Some f).
Proof.
  unfold map_files. destruct (list_files filters text) as [files [e |]];
    [discriminate |].
  intros [= <-]. simpl. split.
  - apply dict_by_filename_dom.
  - intros pre f post -> Hpost. apply dict_by_filename_last. exact Hpost.
Qed.

Lemma map_files_keys_witness :
  let text := ("/DCIM,A.JPG,1,32,33,0" +:+ CRLF +:+ "/DCIM,B.JPG,2,32,33,0"
               +:+ CRLF +:+ "/DCIM,A.JPG,3,32,33,0")%string in
  exists d, map_files [] text = Ok d
    /\ dom d = list_to_set (List.map filename (fst (list_files [] text))).
Proof.
  intros text.
  assert (Hnone : snd (list_files [] text) = None) by (vm_compute; reflexivity).
  assert (Hd : map_files [] text
               = Ok (dict_by_filename (fst (list_files [] text)))).
  { unfold map_files. destruct (list_files [] text) as [files raised].
    simpl in Hnone. rewrite Hnone. reflexivity. }
  eexists. split; [exact Hd |].
  exact (proj1 (map_files_keys [] text _ Hd)).
Defined.

(** ** The [path] field *)

Lemma chars_append (a b : string) :
  Py.chars (String.append a b) = Py.chars a ++ Py.chars b.
Proof.
  induction a as [|c a IH]; [reflexivity |].
  change (Py.chars (String c (String.append a b)) = c :: (Py.chars a ++ Py.chars b)).
  change (c :: Py.chars (String.append a b) = c :: (Py.chars a ++ Py.chars b)).
  rewrite IH. reflexivity.
Qed.

Lemma str_chars (s : string) : Py.str (Py.chars s) = s.
Proof. apply string_of_list_ascii_of_string. Qed.

Lemma startswith_sep (s : string) :
  Py.str_startswith s "/" = true <-> exists rest, s = String "/" rest.
Proof.
  unfold Py.str_startswith.
  destruct s as [|c s]; cbn [Py.chars list_ascii_of_string Py.startswith].
  - split; [discriminate | intros [rest H]; discriminate].
  - destruct (Ascii.eqb_spec "/"%char c) as [<- | Hne]; split.
    + intros _. exists s. reflexivity.
    + intros _. reflexivity.
    + discriminate.
    + intros [rest H]. injection H as E _. congruence.
Qed.

(** An argument with a leading separator has a root. *)
Lemma splitroot_rooted (rest : string) :
  exists root rel, PurePosixPath.splitroot (String "/" rest) = (root, rel)
                   /\ String.eqb root EmptyString = false.
Proof.
  unfold PurePosixPath.splitroot.
  change (Py.chars (String "/" rest)) with ("/"%char :: Py.chars rest).
  change (Ascii.eqb "/" PurePosixPath.sep) with true. cbv iota.
  destruct (_ =? 2)%nat; eauto.
Qed.

(** [PurePosixPath(directory, filename)] forgets [directory] when [filename]
    has a leading separator. *)
Lemma to_str_rooted_filename (directory filename : string) :
  Py.str_startswith filename "/" = true ->
  PurePosixPath.to_str [directory; filename] = PurePosixPath.to_str [filename].
Proof.
  intros H. apply startswith_sep in H as [rest ->].
  unfold PurePosixPath.to_str, PurePosixPath.parse_parts.
  cbn [rev app PurePosixPath.parse_parts_rev].
  change (String.eqb (String "/" rest) EmptyString) with false. cbv iota.
  destruct (splitroot_rooted rest) as (root & rel & -> & ->).
  reflexivity.
Qed.

Lemma split_go_plain (l : list ascii) :
  existsb (Ascii.eqb PurePosixPath.sep) l = false ->
  Py.split_go ["/"%char] 0 l = [l].
Proof.
  induction l as [|c l IH]; [reflexivity |].
  cbn [existsb Py.split_go Py.startswith]. intros H.
  apply orb_false_iff in H as [Hc Hl].
  change PurePosixPath.sep with "/"%char in Hc. rewrite Hc, (IH Hl).
  reflexivity.
Qed.

Lemma split_go_plain_sep (l rest : list ascii) :
  existsb (Ascii.eqb PurePosixPath.sep) l = false ->
  Py.split_go ["/"%char] 0 (l ++ "/"%char :: rest)
  = l :: Py.split_go ["/"%char] 0 rest.
Proof.
  induction l as [|c l IH]; [reflexivity |].
  cbn [existsb app Py.split_go Py.startswith]. intros H.
  apply orb_false_iff in H as [Hc Hl].
  change PurePosixPath.sep with "/"%char in Hc. rewrite Hc, (IH Hl).
  reflexivity.
Qed.

Lemma plain_component_chars (p : string) :
  plain_component p = true ->
  PurePosixPath.keep p = true
  /\ existsb (Ascii.eqb PurePosixPath.sep) (Py.chars p) = false.
Proof.
  unfold plain_component. intros H. apply andb_true_iff in H as [Hk Hs].
  apply negb_true_iff in Hs. auto.
Qed.

Lemma split_join_plain (parts : list string) :
  parts <> [] ->
  Forall (fun p => plain_component p = true) parts ->
  Py.split (Py.join "/" parts) "/" = parts.
Proof.
  intros Hne Hall. unfold Py.split.
  induction Hall as [|p parts Hp Hall IH]; [congruence |].
  destruct (plain_component_chars p Hp) as [_ Hsep].
  destruct parts as [|q parts].
  - cbn [Py.join]. change (Py.chars "/") with ["/"%char].
    rewrite (split_go_plain _ Hsep). cbn [List.map]. rewrite str_chars.
    reflexivity.
  - change (Py.join "/" (p :: q :: parts))
      with (String.append p (String.append "/" (Py.join "/" (q :: parts)))).
    rewrite !chars_append. change (Py.chars "/") with ["/"%char].
    cbn [app]. rewrite (split_go_plain_sep _ _ Hsep). cbn [List.map].
    rewrite str_chars. f_equal. apply IH. discriminate.
Qed.

Lemma lstrip_sep_plain (parts : list string) :
  Forall (fun p => plain_component p = true) parts ->
  PurePosixPath.lstrip_sep (Py.chars (Py.join "/" parts))
  = Py.chars (Py.join "/" parts).
Proof.
  intros Hall. destruct Hall as [|p parts Hp Hall]; [reflexivity |].
  destruct (plain_component_chars p Hp) as [Hk Hsep].
  assert (Hhead : exists c l rest,
             Py.chars (Py.join "/" (p :: parts)) = c :: rest
             /\ Py.chars p = c :: l).
  { destruct p as [|c p]; [discriminate |].
    destruct parts as [|q parts].
    - exists c, (Py.chars p), (Py.chars p). split; reflexivity.
    - change (Py.join "/" (String c p :: q :: parts))
        with (String.append (String c p)
                (String.append "/" (Py.join "/" (q :: parts)))).
      rewrite chars_append. exists c, (Py.chars p). eexists.
      split; reflexivity. }
  destruct Hhead as (c & l & rest & -> & Hchars).
  rewrite Hchars in Hsep. cbn [existsb] in Hsep.
  apply orb_false_iff in Hsep as [Hc _].
  cbn [PurePosixPath.lstrip_sep].
  rewrite Ascii.eqb_sym in Hc. rewrite Hc. reflexivity.
Qed.

(** A file name that is a separator followed by plain components joined by
    separators is its own path. *)
Lemma to_str_normal_filename (directory : string) (parts : list string) :
  Forall (fun p => plain_component p = true) parts ->
  PurePosixPath.to_str [directory; String "/" (Py.join "/" parts)]
  = String "/" (Py.join "/" parts).
Proof.
  intros Hall.
  rewrite to_str_rooted_filename by (apply startswith_sep; eauto).
  unfold PurePosixPath.to_str, PurePosixPath.parse_parts.
  cbn [rev app PurePosixPath.parse_parts_rev].
  change (String.eqb (String "/" (Py.join "/" parts)) EmptyString) with false.
  cbv iota.
  assert (Hroot : PurePosixPath.splitroot (String "/" (Py.join "/" parts))
                  = ("/"%string, Py.join "/" parts)).
  { unfold PurePosixPath.splitroot.
    change (Py.chars (String "/" (Py.join "/" parts)))
      with ("/"%char :: Py.chars (Py.join "/" parts)).
    change (Ascii.eqb "/" PurePosixPath.sep) with true. cbv iota.
    cbn [PurePosixPath.lstrip_sep].
    change (Ascii.eqb "/" PurePosixPath.sep) with true. cbv iota.
    rewrite (lstrip_sep_plain parts Hall), str_chars.
    replace (_ =? 2)%nat with false; [reflexivity |].
    symmetry. apply Nat.eqb_neq. cbn [List.length]. lia. }
  rewrite Hroot. change (String.eqb "/" EmptyString) with false. cbv iota.
  assert (Hcomp : PurePosixPath.components (Py.join "/" parts) = parts).
  { unfold PurePosixPath.components. destruct parts as [|p parts].
    - reflexivity.
    - rewrite split_join_plain by (assumption || discriminate).
      apply forallb_filter_id. apply forallb_forall. intros x Hx.
      rewrite Forall_forall in Hall.
      apply (plain_component_chars x). apply Hall.
      apply list_elem_of_In. exact Hx. }
  rewrite Hcomp. reflexivity.
Qed.

Lemma decode_line_fields (line : string) (f : FileInfo) :
  decode_line line = Some (Ok f) ->
  exists s1 s2 s3 s4 attr_val,
    Py.split line "," = [directory f; filename f; s1; s2; s3; s4]
    /\ path f = PurePosixPath.to_str [directory f; filename f]
    /\ Py.int s1 = Some (size f)
    /\ Py.int s2 = Some attr_val
    /\ attribute f = _decode_attribute attr_val.
Proof.
  unfold decode_line.
  destruct (Py.split line ",") as [|a [|b [|c [|d [|e [|g [|h l]]]]]]];
    try discriminate.
  unfold decode_entry, int_field. intros H.
  destruct (Py.int c) as [sz |] eqn:Hc; [| discriminate].
  destruct (Py.int d) as [attr_val |] eqn:Hd; [| discriminate].
  destruct (Py.int e) as [date_val |]; [| discriminate].
  destruct (Py.int g) as [time_val |]; [| discriminate].
  cbn [bind] in H.
  destruct (_decode_time date_val time_val) as [timeinfo | err]; [| discriminate].
  cbn [bind] in H. injection H as <-. cbn [directory filename path size attribute].
  exists c, d, e, g, attr_val. auto.
Qed.

Lemma decode_line_raw_fields (line : string) (r : Raw.RawFileInfo) :
  decode_line_raw line = Some (Ok r) ->
  exists s1 s2 s3 s4,
    Py.split line "," = [Raw.directory r; Raw.filename r; s1; s2; s3; s4]
    /\ Raw.path r = PurePosixPath.to_str [Raw.directory r; Raw.filename r]
    /\ Py.int s1 = Some (Raw.size r).
Proof.
  unfold decode_line_raw.
  destruct (Py.split line ",") as [|a [|b [|c [|d [|e [|g [|h l]]]]]]];
    try discriminate.
  unfold decode_entry_raw, int_field. intros H.
  destruct (Py.int c) as [sz |] eqn:Hc; [| discriminate].
  cbn [bind] in H. injection H as <-.
  cbn [Raw.directory Raw.filename Raw.path Raw.size].
  exists c, d, e, g. auto.
Qed.

(** C10, as stated, fails: the path is the file name in normal form, which
    is not always the file name. For the line below the file name is "/a/"
    and the path is "/a". *)
Lemma path_of_rooted_filename_is_normalized :
  exists f, decode_line "/DCIM,/a/,1,32,33,0" = Some (Ok f)
            /\ Py.str_startswith (filename f) "/" = true
            /\ filename f = "/a/"%string
            /\ path f = "/a"%string.
Proof. eexists. repeat split. Qed.

(** C10, amended. For every decoded entry whose file name begins with a
    separator, a [FileInfo] of [_split_file_list] as well as a
    [RawFileInfo] of [_split_file_list_raw] (also one of a line the full
    decoder rejects), the path is the normal form of the file name alone,
    whatever the directory is; it is the file name itself when the file name
    is a separator followed by components that are not empty, not "." and
    hold no separator, joined by separators. The two decoders give a line
    the same file name and the same path. So the path is not always the
    directory joined with the file name: directory "/DCIM" and file name
    "/x" give "/x". *)
Theorem path_of_rooted_filename (line : string) :
  (forall f, decode_line line = Some (Ok f) ->
   Py.str_startswith (filename f) "/" = true ->
   path f = PurePosixPath.to_str [filename f]
   /\ (forall other, PurePosixPath.to_str [other; filename f] = path f)
   /\ (forall parts, Forall (fun p => plain_component p = true) parts ->
       filename f = String "/" (Py.join "/" parts) ->
       path f = filename f))
  /\ (forall r, decode_line_raw line = Some (Ok r) ->
      Py.str_startswith (Raw.filename r) "/" = true ->
      Raw.path r = PurePosixPath.to_str [Raw.filename r]
      /\ (forall other,
          PurePosixPath.to_str [other; Raw.filename r] = Raw.path r)
      /\ (forall parts, Forall (fun p => plain_component p = true) parts ->
          Raw.filename r = String "/" (Py.join "/" parts) ->
          Raw.path r = Raw.filename r))
  /\ (forall f r, decode_line line = Some (Ok f) ->
      decode_line_raw line = Some (Ok r) ->
      Raw.filename r = filename f /\ Raw.path r = path f)
  /\ PurePosixPath.to_str ["/DCIM"; "/x"]%string = "/x"%string
  /\ PurePosixPath.to_str ["/DCIM"; "100.JPG"]%string = "/DCIM/100.JPG"%string.
Proof.
  split; [| split; [| split; [| split; reflexivity]]].
  - intros f Hf Hroot.
    destruct (decode_line_fields line f Hf) as (_ & _ & _ & _ & _ & _ & Hp & _).
    assert (Hpath : path f = PurePosixPath.to_str [filename f])
      by (rewrite Hp; apply to_str_rooted_filename; exact Hroot).
    split; [exact Hpath |]. split.
    + intros other. rewrite Hpath. apply to_str_rooted_filename. exact Hroot.
    + intros parts Hparts Hname. rewrite Hp, Hname.
      apply to_str_normal_filename. exact Hparts.
  - intros r Hr Hroot.
    destruct (decode_line_raw_fields line r Hr) as (_ & _ & _ & _ & _ & Hp & _).
    assert (Hpath : Raw.path r = PurePosixPath.to_str [Raw.filename r])
      by (rewrite Hp; apply to_str_rooted_filename; exact Hroot).
    split; [exact Hpath |]. split.
    + intros other. rewrite Hpath. apply to_str_rooted_filename. exact Hroot.
    + intros parts Hparts Hname. rewrite Hp, Hname.
      apply to_str_normal_filename. exact Hparts.
  - intros f r Hf Hr.
    destruct (decode_line_fields line f Hf)
      as (s1 & s2 & s3 & s4 & a & Hg & Hp & _).
    destruct (decode_line_raw_fields line r Hr)
      as (t1 & t2 & t3 & t4 & Hg' & Hp' & _).
    rewrite Hg in Hg'. injection Hg' as Hd Hn _ _ _ _.
    split; [congruence |]. rewrite Hp, Hp', Hd, Hn. reflexivity.
Qed.

Lemma path_of_rooted_filename_witness :
  (exists f, decode_line "/DCIM,/a/b.jpg,1,32,33,0" = Some (Ok f)
             /\ path f = PurePosixPath.to_str [filename f]
             /\ path f = filename f)
  /\ (exists r, decode_line_raw "/DCIM,/x,3,x,y,z" = Some (Ok r)
                /\ decode_line "/DCIM,/x,3,x,y,z" = Some (Err ValueError)
                /\ Raw.path r = Raw.filename r).
Proof.
  split.
  - destruct (decode_line "/DCIM,/a/b.jpg,1,32,33,0") as [[f | e] |] eqn:Hf;
      [| vm_compute in Hf; discriminate ..].
    exists f. split; [reflexivity |].
    assert (Hname : filename f = "/a/b.jpg"%string).
    { vm_compute in Hf. injection Hf as <-. reflexivity. }
    assert (Hroot : Py.str_startswith (filename f) "/" = true).
    { rewrite Hname. reflexivity. }
    destruct (proj1 (path_of_rooted_filename _) f Hf Hroot)
      as (Hpath & _ & Hnormal).
    split; [exact Hpath |].
    apply (Hnormal ["a"; "b.jpg"]%string).
    + repeat constructor.
    + exact Hname.
  - destruct (decode_line_raw "/DCIM,/x,3,x,y,z") as [[r | e] |] eqn:Hr;
      [| vm_compute in Hr; discriminate ..].
    exists r. split; [reflexivity |]. split; [reflexivity |].
    assert (Hname : Raw.filename r = "/x"%string).
    { vm_compute in Hr. injection Hr as <-. reflexivity. }
    assert (Hroot : Py.str_startswith (Raw.filename r) "/" = true).
    { rewrite Hname. reflexivity. }
    destruct (proj1 (proj2 (path_of_rooted_filename _)) r Hr Hroot)
      as (_ & _ & Hnormal).
    apply (Hnormal ["x"]%string).
    + repeat constructor.
    + exact Hname.
Defined.

(** ** [list_files_recursive] *)

Lemma scan_listing_spec (filters : list (FileInfo -> bool))
    (entries : list FileInfo) (dirs_to_scan : list string) :
  scan_listing filters entries dirs_to_scan =
  (List.map Yield (files_in filters entries),
   dirs_to_scan ++ subdirs_in entries).
Proof.
  revert dirs_to_scan.
  induction entries as [|f entries IH]; intros q.
  - simpl. rewrite app_nil_r. reflexivity.
  - cbn [scan_listing]. unfold files_in, subdirs_in in *.
    cbn [List.filter]. destruct (directly (attribute f)); cbn [negb].
    + rewrite IH. cbn [List.map]. rewrite <- app_assoc. reflexivity.
    + rewrite IH. cbn [List.map List.filter].
      destruct (Py.all_of filters (normalized f)); reflexivity.
Qed.

Section Traversal.

Variable device : string -> string.
Variable filters : list (FileInfo -> bool).

(** The queue is first in, first out: the directory at the front is
    requested, its files are yielded, and the directories it names go to
    the back. *)
Lemma scan_queue_step (fuel : nat) (dir : string) (queue : list string) :
  listed device dir = true ->
  scan_queue (S fuel) device filters (dir :: queue) =
  (visit device filters dir
     ++ fst (scan_queue fuel device filters (queue ++ children device dir)),
   snd (scan_queue fuel device filters (queue ++ children device dir))).
Proof.
  unfold listed, visit, children. cbn [scan_queue].
  destruct (_split_file_list (device dir)) as [entries raised].
  cbn [fst snd]. rewrite scan_listing_spec.
  destruct raised; [discriminate |]. intros _.
  destruct (scan_queue fuel device filters (queue ++ subdirs_in entries)).
  reflexivity.
Qed.

(** A listing that raises ends the traversal, after what it yielded. *)
Lemma scan_queue_raise (fuel : nat) (dir : string) (queue : list string)
    (e : exn) :
  snd (_split_file_list (device dir)) = Some e ->
  scan_queue (S fuel) device filters (dir :: queue) =
  (visit device filters dir, Raised e).
Proof.
  unfold visit. cbn [scan_queue].
  destruct (_split_file_list (device dir)) as [entries raised].
  cbn [fst snd]. rewrite scan_listing_spec. intros ->. reflexivity.
Qed.

Lemma scan_queue_front (queue done : list string) (fuel : nat) :
  Forall (fun d => listed device d = true) queue ->
  scan_queue (List.length queue + fuel) device filters
             (queue ++ flat_map (children device) done) =
  (flat_map (visit device filters) queue
     ++ fst (scan_queue fuel device filters
               (flat_map (children device) (done ++ queue))),
   snd (scan_queue fuel device filters
          (flat_map (children device) (done ++ queue)))).
Proof.
  intros Hq. revert done.
  induction Hq as [|dir queue Hdir _ IH]; intros done.
  - cbn [List.length Nat.add app flat_map]. rewrite app_nil_r.
    destruct (scan_queue fuel device filters _). reflexivity.
  - cbn [List.length Nat.add app].
    rewrite (scan_queue_step _ _ _ Hdir).
    replace ((queue ++ flat_map (children device) done) ++ children device dir)
      with (queue ++ flat_map (children device) (done ++ [dir])).
    + rewrite IH. cbn [fst snd flat_map].
      replace ((done ++ [dir]) ++ queue) with (done ++ dir :: queue)
        by (rewrite <- app_assoc; reflexivity).
      rewrite <- app_assoc. reflexivity.
    + rewrite flat_map_app. cbn [flat_map]. rewrite app_nil_r.
      rewrite app_assoc. reflexivity.
Qed.

Lemma scan_queue_bfs (depth : nat) (queue : list string) (spare : nat) :
  level device depth queue = [] ->
  Forall (fun d => listed device d = true) (bfs_order device depth queue) ->
  scan_queue (List.length (bfs_order device depth queue) + spare)
             device filters queue =
  (flat_map (visit device filters) (bfs_order device depth queue), Done).
Proof.
  revert queue.
  induction depth as [|depth IH]; intros queue Hlevel Hlisted.
  - cbn [level] in Hlevel. subst queue. cbn [bfs_order flat_map].
    destruct (List.length [] + spare)%nat; reflexivity.
  - cbn [level bfs_order] in *.
    apply Forall_app in Hlisted as [Hqueue Hrest].
    rewrite length_app, <- Nat.add_assoc.
    pose proof (scan_queue_front queue []
                  (List.length (bfs_order device depth
                                  (flat_map (children device) queue)) + spare)
                  Hqueue) as Hfront.
    cbn [flat_map app] in Hfront. rewrite app_nil_r in Hfront.
    rewrite Hfront, (IH _ Hlevel Hrest). cbn [fst snd].
    rewrite flat_map_app. reflexivity.
Qed.

End Traversal.

Lemma with_leading_sep_rooted (p : string) :
  Py.str_startswith (with_leading_sep p) "/" = true.
Proof.
  unfold with_leading_sep.
  destruct (Py.str_startswith p "/") eqn:H; [exact H |].
  apply startswith_sep. eauto.
Qed.

Lemma splitroot_root (part : string) :
  let root := fst (PurePosixPath.splitroot part) in
  root = EmptyString \/ root = "/"%string \/ root = "//"%string.
Proof.
  unfold PurePosixPath.splitroot.
  destruct (Py.chars part) as [|c l]; [auto |].
  destruct (Ascii.eqb c PurePosixPath.sep); [| auto].
  destruct (_ =? 2)%nat; auto.
Qed.

Lemma rooted_append (root tail : string) :
  root = "/"%string \/ root = "//"%string ->
  let s := String.append root tail in
  (if String.eqb s EmptyString then "."%string else s) = s
  /\ Py.str_startswith s "/" = true.
Proof.
  intros [-> | ->]; split; reflexivity.
Qed.

(** The path of an entry whose directory has a leading separator has one
    too. *)
Lemma to_str_rooted_directory (directory filename : string) :
  Py.str_startswith directory "/" = true ->
  Py.str_startswith (PurePosixPath.to_str [directory; filename]) "/" = true.
Proof.
  intros H. apply startswith_sep in H as [rest ->].
  unfold PurePosixPath.to_str, PurePosixPath.parse_parts.
  cbn [rev app PurePosixPath.parse_parts_rev].
  change (String.eqb (String "/" rest) EmptyString) with false. cbv iota.
  destruct (splitroot_rooted rest) as (droot & drel & Hd & Hdroot).
  pose proof (splitroot_root (String "/" rest)) as Hdcases.
  rewrite Hd in Hdcases. cbn [fst] in Hdcases. rewrite Hd, Hdroot.
  assert (Hdr : droot = "/"%string \/ droot = "//"%string).
  { destruct Hdcases as [-> | Hc]; [discriminate | exact Hc]. }
  destruct (String.eqb filename EmptyString).
  - destruct (rooted_append droot
                (Py.join "/" (PurePosixPath.components drel)) Hdr) as [-> ->].
    reflexivity.
  - pose proof (splitroot_root filename) as Hfcases.
    destruct (PurePosixPath.splitroot filename) as [froot frel].
    cbn [fst] in Hfcases.
    destruct Hfcases as [-> | Hfr].
    + change (String.eqb EmptyString EmptyString) with true. cbv iota.
      destruct (rooted_append droot
                  (Py.join "/" (PurePosixPath.components drel
                                ++ PurePosixPath.components frel)) Hdr)
        as [-> ->].
      reflexivity.
    + assert (Hne : String.eqb froot EmptyString = false)
        by (destruct Hfr as [-> | ->]; reflexivity).
      rewrite Hne.
      destruct (rooted_append froot
                  (Py.join "/" (PurePosixPath.components frel)) Hfr) as [-> ->].
      reflexivity.
Qed.

Lemma in_files_in (filters : list (FileInfo -> bool))
    (entries : list FileInfo) (f : FileInfo) :
  In f (files_in filters entries) <->
  exists g, In g entries /\ directly (attribute g) = false
            /\ f = normalized g /\ Py.all_of filters f = true.
Proof.
  unfold files_in. rewrite filter_In, in_map_iff. split.
  - intros [(g & <- & Hg) Hall]. apply filter_In in Hg as [Hin Hdir].
    apply negb_true_iff in Hdir. eauto.
  - intros (g & Hin & Hdir & -> & Hall). split; [| exact Hall].
    exists g. split; [reflexivity |]. apply filter_In.
    rewrite Hdir. auto.
Qed.

(** What the copy in the loop does to a decoded entry. *)
Lemma normalized_entry (text : string) (g : FileInfo) :
  In g (fst (_split_file_list text)) ->
  (directory g = EmptyString -> normalized g = g)
  /\ (directory g <> EmptyString ->
      Py.str_startswith (directory (normalized g)) "/" = true
      /\ Py.str_startswith (path (normalized g)) "/" = true)
  /\ filename (normalized g) = filename g
  /\ size (normalized g) = size g
  /\ attribute (normalized g) = attribute g
  /\ datetime (normalized g) = datetime g.
Proof.
  intros Hin. apply in_decode_lines in Hin as (line & _ & Hline).
  destruct (decode_line_fields line g Hline) as (_ & _ & _ & _ & _ & _ & Hpath & _).
  unfold normalized. split; [| split].
  - intros ->. reflexivity.
  - intros Hne.
    assert (Hnonempty : String.eqb (directory g) EmptyString = false).
    { apply String.eqb_neq. exact Hne. }
    rewrite Hnonempty. cbn [negb andb].
    destruct (Py.str_startswith (directory g) "/") eqn:Hroot; cbn [negb].
    + split; [exact Hroot |]. rewrite Hpath.
      apply to_str_rooted_directory. exact Hroot.
    + cbn [directory path]. split.
      * apply startswith_sep. eauto.
      * apply with_leading_sep_rooted.
  - destruct (_ && _); repeat split.
Qed.

Lemma children_rooted (device : string -> string) (dirs : list string) :
  Forall (fun d => Py.str_startswith d "/" = true)
         (flat_map (children device) dirs).
Proof.
  apply Forall_forall. intros d Hd. apply list_elem_of_In in Hd.
  apply in_flat_map in Hd as (dir & _ & Hd).
  unfold children, subdirs_in in Hd. apply in_map_iff in Hd as (f & <- & _).
  apply with_leading_sep_rooted.
Qed.

Lemma bfs_order_rooted (device : string -> string) (depth : nat)
    (dirs : list string) :
  Forall (fun d => Py.str_startswith d "/" = true) dirs ->
  Forall (fun d => Py.str_startswith d "/" = true) (bfs_order device depth dirs).
Proof.
  revert dirs. induction depth as [|depth IH]; intros dirs Hdirs.
  - constructor.
  - cbn [bfs_order]. apply Forall_app. split; [exact Hdirs |].
    apply IH. apply children_rooted.
Qed.

(** C3, as stated, fails: a file entry whose directory field is empty is
    yielded as it is. For a root listing with the line ",a.jpg,1,32,33,0"
    the entry yielded has an empty directory and the path "a.jpg", neither
    with a leading separator. *)
Lemma list_files_recursive_empty_directory :
  exists f,
    list_files_recursive 1 (fun _ => ",a.jpg,1,32,33,0"%string) [] "/"
    = ([Request "/"; Yield f], Done)
    /\ directory f = EmptyString
    /\ path f = "a.jpg"%string
    /\ Py.str_startswith (directory f) "/" = false
    /\ Py.str_startswith (path f) "/" = false.
Proof. eexists. repeat split. Qed.

(** The copy the loop makes, field by field, for a decoded entry whose
    directory is not empty: the directory and the path get a separator in
    front unless they begin with one, the other fields are kept. *)
Lemma normalized_exact (text : string) (g : FileInfo) :
  In g (fst (_split_file_list text)) ->
  directory g <> EmptyString ->
  normalized g =
  mkFileInfo
    (if Py.str_startswith (directory g) "/" then directory g
     else String.append "/" (directory g))
    (filename g)
    (if Py.str_startswith (path g) "/" then path g
     else String.append "/" (path g))
    (size g) (attribute g) (datetime g).
Proof.
  intros Hin Hne. apply in_decode_lines in Hin as (line & _ & Hline).
  destruct (decode_line_fields line g Hline) as (_ & _ & _ & _ & _ & _ & Hpath & _).
  unfold normalized.
  assert (Hnonempty : String.eqb (directory g) EmptyString = false)
    by (apply String.eqb_neq; exact Hne).
  rewrite Hnonempty. cbn [negb andb].
  destruct (Py.str_startswith (directory g) "/") eqn:Hroot; cbn [negb].
  - assert (Hrooted : Py.str_startswith (path g) "/" = true)
      by (rewrite Hpath; apply to_str_rooted_directory; exact Hroot).
    rewrite Hrooted. destruct g. reflexivity.
  - reflexivity.
Qed.

(** C3, amended. When the directories reached from [remote_dir] end at some
    depth and their listings decode, [list_files_recursive] visits them in
    breadth-first order: the start directory (with a separator put in front
    unless it begins with one), then the directories it names, then those
    they name. The queue is first in, first out; each visit is one request
    followed by the files of that listing, before any directory it names is
    requested; a directory named is enqueued as the path of its entry, with
    a separator put in front unless the path begins with one, so every
    directory requested begins with a separator. The files yielded are, in
    the order of the listing, the entries that are no directory and that
    every filter accepts after the copy the loop makes: an entry with a
    non-empty directory is yielded with a separator put in front of its
    directory and of its path unless they begin with one and with its other
    fields unchanged, and an entry with an empty directory is yielded
    unchanged. *)
Theorem list_files_recursive_bfs (device : string -> string)
    (filters : list (FileInfo -> bool)) (remote_dir : string)
    (depth fuel : nat) :
  let root := with_leading_sep remote_dir in
  let order := bfs_order device depth [root] in
  level device depth [root] = [] ->
  Forall (fun d => listed device d = true) order ->
  (List.length order <= fuel)%nat ->
  list_files_recursive fuel device filters remote_dir
  = (flat_map (visit device filters) order, Done)
  /\ (forall dir queue n, listed device dir = true ->
      scan_queue (S n) device filters (dir :: queue) =
      (visit device filters dir
         ++ fst (scan_queue n device filters (queue ++ children device dir)),
       snd (scan_queue n device filters (queue ++ children device dir))))
  /\ Forall (fun d => Py.str_startswith d "/" = true) order
  /\ (forall dir f,
      In f (files_in filters (fst (_split_file_list (device dir)))) <->
      exists g, In g (fst (_split_file_list (device dir)))
                /\ directly (attribute g) = false
                /\ f = normalized g /\ Py.all_of filters f = true)
  /\ (forall dir g, In g (fst (_split_file_list (device dir))) ->
      (directory g = EmptyString -> normalized g = g)
      /\ (directory g <> EmptyString ->
          normalized g =
          mkFileInfo
            (if Py.str_startswith (directory g) "/" then directory g
             else String.append "/" (directory g))
            (filename g)
            (if Py.str_startswith (path g) "/" then path g
             else String.append "/" (path g))
            (size g) (attribute g) (datetime g)
          /\ Py.str_startswith (directory (normalized g)) "/" = true
          /\ Py.str_startswith (path (normalized g)) "/" = true))
  /\ (forall dir,
      visit device filters dir =
      Request dir
      :: List.map Yield
           (List.filter (fun f => forallb (fun filt => filt f) filters)
              (List.map normalized
                 (List.filter (fun g => negb (directly (attribute g)))
                    (fst (_split_file_list (device dir)))))))
  /\ (forall dir,
      children device dir =
      List.map (fun g => if Py.str_startswith (path g) "/" then path g
                         else String.append "/" (path g))
        (List.filter (fun g => directly (attribute g))
           (fst (_split_file_list (device dir)))))
  /\ root = (if Py.str_startswith remote_dir "/" then remote_dir
             else String.append "/" remote_dir).
Proof.
  intros root order Hlevel Hlisted Hfuel.
  split; [| split; [| split; [| split; [| split; [| split; [| split]]]]]].
  - unfold list_files_recursive. fold root.
    replace fuel with (List.length order + (fuel - List.length order))%nat by lia.
    apply scan_queue_bfs; assumption.
  - intros dir queue n Hdir. apply scan_queue_step. exact Hdir.
  - apply bfs_order_rooted. constructor; [| constructor].
    apply with_leading_sep_rooted.
  - intros dir f. apply in_files_in.
  - intros dir g Hg.
    destruct (normalized_entry _ g Hg) as (Hempty & Hrooted & _).
    split; [exact Hempty |]. intros Hne.
    split; [exact (normalized_exact _ g Hg Hne) | exact (Hrooted Hne)].
  - intros dir. reflexivity.
  - intros dir. reflexivity.
  - reflexivity.
Qed.

Lemma list_files_recursive_bfs_witness :
  let device := fun dir : string =>
    if String.eqb dir "/" then
      (",a.jpg,1,32,33,0" +:+ CRLF +:+ ",DCIM,0,16,33,0" +:+ CRLF)%string
    else if String.eqb dir "/DCIM" then "DCIM,b.jpg,2,32,33,0"%string
    else EmptyString in
  exists f g,
    list_files_recursive 5 device [] "/"
    = ([Request "/"; Yield f; Request "/DCIM"; Yield g], Done)
    /\ path f = "a.jpg"%string /\ path g = "/DCIM/b.jpg"%string.
Proof.
  intros device.
  assert (Hlevel : level device 2 [with_leading_sep "/"] = [])
    by (vm_compute; reflexivity).
  assert (Horder : bfs_order device 2 [with_leading_sep "/"]
                   = ["/"; "/DCIM"]%string)
    by (vm_compute; reflexivity).
  assert (Hlisted : Forall (fun d => listed device d = true)
                           (bfs_order device 2 [with_leading_sep "/"])).
  { rewrite Horder.
    repeat (constructor; [vm_compute; reflexivity |]). constructor. }
  assert (Hfuel : (List.length (bfs_order device 2 [with_leading_sep "/"]) <= 5)%nat)
    by (rewrite Horder; cbn [List.length]; lia).
  destruct (list_files_recursive_bfs device [] "/" 2 5 Hlevel Hlisted Hfuel)
    as (Htrace & _).
  rewrite Htrace, Horder.
  eexists. eexists. split; [vm_compute; reflexivity |].
  split; reflexivity.
Defined.

(** * Further properties of the decoders and of the API *)

(** ** [_decode_attribute] on any integer *)

Lemma decode_attribute_bits (attr_val : Z) :
  _decode_attribute attr_val =
  mkAttrInfo (Z.testbit attr_val 5) (Z.testbit attr_val 4)
             (Z.testbit attr_val 3) (Z.testbit attr_val 2)
             (Z.testbit attr_val 1) (Z.testbit attr_val 0).
Proof.
  unfold _decode_attribute, bit_positions. cbn [rev app List.map nth].
  rewrite !land_bit_testbit by lia. reflexivity.
Qed.

(** Encoding six flags, most significant first, below any higher bits, and
    decoding gives the flags back: [_decode_attribute] reads the six low
    bits and nothing else. *)
Theorem decode_attribute_of_flags (high : Z) (a d v s h r : bool) :
  _decode_attribute (64 * high + 32 * Z.b2z a + 16 * Z.b2z d + 8 * Z.b2z v
                     + 4 * Z.b2z s + 2 * Z.b2z h + Z.b2z r)
  = mkAttrInfo a d v s h r.
Proof.
  set (low := 32 * Z.b2z a + 16 * Z.b2z d + 8 * Z.b2z v
              + 4 * Z.b2z s + 2 * Z.b2z h + Z.b2z r).
  replace (64 * high + 32 * Z.b2z a + 16 * Z.b2z d + 8 * Z.b2z v
           + 4 * Z.b2z s + 2 * Z.b2z h + Z.b2z r)
    with (low + high * 2 ^ 6) by (subst low; change (2 ^ 6) with 64; ring).
  assert (Hlow : _decode_attribute low = mkAttrInfo a d v s h r).
  { subst low. destruct a, d, v, s, h, r; reflexivity. }
  rewrite <- Hlow, !decode_attribute_bits.
  assert (Hbit : forall i, 0 <= i < 6 ->
                 Z.testbit (low + high * 2 ^ 6) i = Z.testbit low i).
  { intros i Hi.
    rewrite <- (Z.mod_pow2_bits_low (low + high * 2 ^ 6) 6 i) by lia.
    rewrite Z.mod_add by (change (2 ^ 6) with 64; lia).
    apply Z.mod_pow2_bits_low. lia. }
  rewrite !Hbit by lia. reflexivity.
Qed.

(** ** [_decode_time] on any pair of integers *)

Lemma arrow_get_ok (y m d h mi s : Z) (zone : tzinfo) (ts : Arrow) :
  arrow_get y m d h mi s zone = Ok ts ->
  ts = mkArrow y m d h mi s zone /\ Datetime.valid y m d h mi s = true.
Proof.
  unfold arrow_get.
  destruct (negb (forallb Datetime.c_int [y; m; d; h; mi; s])); [discriminate |].
  destruct (Datetime.valid y m d h mi s); [| discriminate].
  intros [= <-]. auto.
Qed.

(** Whatever the two integers are, a timestamp [_decode_time] returns is a
    date and time that exists; its time fields are the ones of the time
    code, never clamped, with an even second; in the local zone the date
    fields are those of the date code, and without zone the year is at least
    1980. For a date code that is not negative the year is at least 1980. *)
Theorem decode_time_returns_valid (date_val time_val : Z) (ts : Arrow) :
  _decode_time date_val time_val = Ok ts ->
  Datetime.valid (year ts) (month ts) (day ts)
                 (hour ts) (minute ts) (second ts) = true
  /\ hour ts = time_val / 2 ^ 11
  /\ minute ts = (time_val / 2 ^ 5) mod 2 ^ 6
  /\ second ts = 2 * (time_val mod 2 ^ 5)
  /\ (tz ts = TzLocal ->
      year ts = 1980 + date_val / 2 ^ 9
      /\ month ts = (date_val / 2 ^ 5) mod 2 ^ 4
      /\ day ts = date_val mod 2 ^ 5)
  /\ (tz ts = TzUTC -> 1980 <= year ts)
  /\ (0 <= date_val -> 1980 <= year ts).
Proof.
  rewrite decode_time_unfold. cbv zeta. intros H.
  assert (Hyear : 0 <= date_val -> 1980 <= date_val / 2 ^ 9 + 1980).
  { intros Hpos. assert (0 <= date_val / 2 ^ 9) by (apply Z.div_pos; lia). lia. }
  destruct (arrow_get (date_val / 2 ^ 9 + 1980) ((date_val / 2 ^ 5) mod 2 ^ 4)
              (date_val mod 2 ^ 5) (time_val / 2 ^ 11)
              ((time_val / 2 ^ 5) mod 2 ^ 6) (time_val mod 2 ^ 5 * 2) TzLocal)
    as [first | e] eqn:Hfirst.
  - injection H as <-. apply arrow_get_ok in Hfirst as [-> Hvalid].
    cbn [year month day hour minute second tz].
    repeat split; try assumption; try lia; try discriminate.
  - destruct e; try discriminate.
    apply arrow_get_ok in H as [-> Hvalid].
    cbn [year month day hour minute second tz].
    repeat split; try assumption; try lia; try discriminate.
Qed.

Lemma decode_time_returns_valid_witness :
  exists ts, _decode_time (- 479) 0 = Ok ts
             /\ Datetime.valid (year ts) (month ts) (day ts)
                                (hour ts) (minute ts) (second ts) = true
             /\ hour ts = 0 / 2 ^ 11.
Proof.
  destruct (_decode_time (- 479) 0) as [ts | e] eqn:H; [| discriminate].
  exists ts. split; [reflexivity |].
  destruct (decode_time_returns_valid _ _ ts H) as (Hvalid & Hhour & _).
  split; [exact Hvalid | exact Hhour].
Defined.

(** [_decode_time] raises [OverflowError], which its [except ValueError]
    does not catch, exactly when the year or the hour it computes does not
    fit a C [int]; for 16-bit codes it never does. *)
Theorem decode_time_overflow (date_val time_val : Z) :
  (_decode_time date_val time_val = Err OverflowError <->
   ~ (- 2 ^ 31 <= date_val / 2 ^ 9 + 1980 < 2 ^ 31
      /\ - 2 ^ 31 <= time_val / 2 ^ 11 < 2 ^ 31))
  /\ (0 <= date_val < 2 ^ 16 -> 0 <= time_val < 2 ^ 16 ->
      _decode_time date_val time_val <> Err OverflowError).
Proof.
  assert (Hmain : _decode_time date_val time_val = Err OverflowError <->
   ~ (- 2 ^ 31 <= date_val / 2 ^ 9 + 1980 < 2 ^ 31
      /\ - 2 ^ 31 <= time_val / 2 ^ 11 < 2 ^ 31)).
  { rewrite decode_time_unfold. cbv zeta.
    set (y := date_val / 2 ^ 9 + 1980). set (h := time_val / 2 ^ 11).
    assert (Hm : 0 <= (date_val / 2 ^ 5) mod 2 ^ 4 < 16)
      by (apply Z.mod_pos_bound; reflexivity).
    assert (Hd : 0 <= date_val mod 2 ^ 5 < 32)
      by (apply Z.mod_pos_bound; reflexivity).
    assert (Hmi : 0 <= (time_val / 2 ^ 5) mod 2 ^ 6 < 64)
      by (apply Z.mod_pos_bound; reflexivity).
    assert (Hs : 0 <= time_val mod 2 ^ 5 < 32)
      by (apply Z.mod_pos_bound; reflexivity).
    set (m := (date_val / 2 ^ 5) mod 2 ^ 4) in *.
    set (d := date_val mod 2 ^ 5) in *.
    set (mi := (time_val / 2 ^ 5) mod 2 ^ 6) in *.
    set (s := time_val mod 2 ^ 5) in *.
    clearbody y h m d mi s.
    change (2 ^ 31) with 2147483648.
    destruct (Datetime.c_int y) eqn:Hy; destruct (Datetime.c_int h) eqn:Hh.
    - unfold Datetime.c_int in Hy, Hh.
      apply andb_true_iff in Hy as [Hy1 Hy2]. apply andb_true_iff in Hh as [Hh1 Hh2].
      apply Z.leb_le in Hy1, Hh1. apply Z.ltb_lt in Hy2, Hh2.
      change (2 ^ 31) with 2147483648 in *.
      rewrite !arrow_get_small by (change (2 ^ 31) with 2147483648; lia).
      split; [| intros Hn; exfalso; apply Hn; lia].
      destruct (Datetime.valid y m d h mi (s * 2)); [discriminate |].
      destruct (Datetime.valid _ _ _ _ _ _); discriminate.
    - split; [intros _ | intros _].
      + unfold Datetime.c_int in Hh. apply andb_false_iff in Hh.
        change (2 ^ 31) with 2147483648 in *.
        rewrite Z.leb_nle, Z.ltb_nlt in Hh. lia.
      + unfold arrow_get. cbn [forallb]. rewrite Hy, Hh.
        rewrite (c_int_small m), (c_int_small d)
          by (change (2 ^ 31) with 2147483648; lia).
        reflexivity.
    - split; [intros _ | intros _].
      + unfold Datetime.c_int in Hy. apply andb_false_iff in Hy.
        change (2 ^ 31) with 2147483648 in *.
        rewrite Z.leb_nle, Z.ltb_nlt in Hy. lia.
      + unfold arrow_get. cbn [forallb]. rewrite Hy. reflexivity.
    - split; [intros _ | intros _].
      + unfold Datetime.c_int in Hy. apply andb_false_iff in Hy.
        change (2 ^ 31) with 2147483648 in *.
        rewrite Z.leb_nle, Z.ltb_nlt in Hy. lia.
      + unfold arrow_get. cbn [forallb]. rewrite Hy. reflexivity. }
  split; [exact Hmain |].
  intros Hd Ht Hraise. apply Hmain in Hraise. apply Hraise.
  change (2 ^ 16) with 65536 in *. change (2 ^ 31) with 2147483648.
  assert (0 <= date_val / 2 ^ 9 < 128)
    by (split; [apply Z.div_pos | apply Z.div_lt_upper_bound]; lia).
  assert (0 <= time_val / 2 ^ 11 < 32)
    by (split; [apply Z.div_pos | apply Z.div_lt_upper_bound]; lia).
  lia.
Qed.

(** ** The integers in the responses *)

Lemma lstrip_blank (ws l : list ascii) :
  forallb Py.isspace ws = true -> Py.lstrip (ws ++ l) = Py.lstrip l.
Proof.
  induction ws as [|c ws IH]; [reflexivity |].
  cbn [forallb app Py.lstrip]. intros H.
  apply andb_true_iff in H as [-> Hws]. apply IH. exact Hws.
Qed.

Lemma lstrip_app (l ws : list ascii) :
  Py.lstrip l <> [] -> Py.lstrip (l ++ ws) = Py.lstrip l ++ ws.
Proof.
  induction l as [|c l IH]; [intros H; exfalso; apply H; reflexivity |].
  cbn [app Py.lstrip]. destruct (Py.isspace c); [exact IH | reflexivity].
Qed.

Lemma lstrip_all_blank (l ws : list ascii) :
  forallb Py.isspace ws = true -> Py.lstrip l = [] ->
  Py.lstrip (l ++ ws) = [].
Proof.
  intros Hws. induction l as [|c l IH]; cbn [app Py.lstrip].
  - intros _. rewrite <- (app_nil_r ws). rewrite lstrip_blank by exact Hws.
    reflexivity.
  - destruct (Py.isspace c); [exact IH | discriminate].
Qed.

Lemma forallb_rev {A : Type} (p : A -> bool) (l : list A) :
  forallb p (rev l) = forallb p l.
Proof.
  induction l as [|x l IH]; [reflexivity |].
  cbn [rev forallb]. rewrite forallb_app, IH. cbn [forallb].
  rewrite andb_true_r. apply andb_comm.
Qed.

Lemma strip_blank (pre post l : list ascii) :
  forallb Py.isspace pre = true -> forallb Py.isspace post = true ->
  Py.strip (pre ++ l ++ post) = Py.strip l.
Proof.
  intros Hpre Hpost. unfold Py.strip. rewrite lstrip_blank by exact Hpre.
  destruct (Py.lstrip l) as [|c t] eqn:Hl.
  - rewrite (lstrip_all_blank l post Hpost Hl). reflexivity.
  - rewrite lstrip_app by (rewrite Hl; discriminate). rewrite Hl.
    rewrite rev_app_distr, lstrip_blank; [reflexivity |].
    rewrite forallb_rev. exact Hpost.
Qed.

Lemma int_blank (pre post text : string) :
  blank pre = true -> blank post = true ->
  Py.int (String.append pre (String.append text post)) = Py.int text.
Proof.
  intros Hpre Hpost. unfold Py.int.
  rewrite !chars_append, strip_blank by assumption. reflexivity.
Qed.

(** [count_files] and [memory_changed] read the number whatever white space
    surrounds it in the response (a line end after it, for one): the answer
    is the one for the text without that white space. *)
Theorem count_files_ignores_blanks (pre post text : string) :
  blank pre = true -> blank post = true ->
  count_files (String.append pre (String.append text post)) = count_files text
  /\ memory_changed (String.append pre (String.append text post))
     = memory_changed text.
Proof.
  intros Hpre Hpost. unfold count_files, int_field, memory_changed.
  rewrite int_blank by assumption. auto.
Qed.

Lemma count_files_ignores_blanks_witness :
  count_files (String.append " " (String.append "42" CRLF)) = Ok 42
  /\ memory_changed (String.append " " (String.append "1" CRLF)) = Ok true.
Proof.
  split.
  - rewrite (proj1 (count_files_ignores_blanks " " CRLF "42" eq_refl eq_refl)).
    reflexivity.
  - rewrite (proj2 (count_files_ignores_blanks " " CRLF "1" eq_refl eq_refl)).
    reflexivity.
Defined.

(** ** [get_wifi_mode]: the order of the two enumerations *)

Lemma find_mode_app (first second : list Mode) (n : Z) :
  find_mode (first ++ second) n =
  match find_mode first n with
  | Ok mode => Ok mode
  | Err _ => find_mode second n
  end.
Proof.
  induction first as [|m first IH]; [reflexivity |].
  cbn [app find_mode]. destruct (value m =? n); [reflexivity | exact IH].
Qed.

Lemma find_mode_some (all_modes : list Mode) (n : Z) (mode : Mode) :
  In mode all_modes -> value mode = n ->
  exists found, find_mode all_modes n = Ok found.
Proof.
  intros Hin Hv. induction all_modes as [|m rest IH]; [destruct Hin |].
  cbn [find_mode]. destruct (Z.eqb_spec (value m) n) as [E | E]; [eauto |].
  destruct Hin as [-> | Hin]; [congruence | auto].
Qed.

(** When a member of [WifiMode] has the value the device answers,
    [get_wifi_mode] returns a member of [WifiMode], whatever
    [WifiModeOnBoot] holds: the members of [WifiMode] are tried first. *)
Theorem get_wifi_mode_prefers_WifiMode
    (WifiMode_members WifiModeOnBoot_members : list Mode)
    (text : string) (n : Z) (mode : Mode) :
  Py.int text = Some n ->
  In mode WifiMode_members -> value mode = n ->
  exists found,
    In found WifiMode_members /\ value found = n
    /\ get_wifi_mode WifiMode_members WifiModeOnBoot_members text = Ok found
    /\ forall others, get_wifi_mode WifiMode_members others text = Ok found.
Proof.
  intros Hn Hin Hv.
  destruct (find_mode_some _ _ _ Hin Hv) as [found Hfound].
  destruct (find_mode_ok _ _ _ Hfound) as [Hfin Hfv].
  exists found. split; [exact Hfin |]. split; [exact Hfv |].
  unfold get_wifi_mode, int_field. rewrite Hn. cbn [bind].
  split; [| intros others]; rewrite find_mode_app, Hfound; reflexivity.
Qed.

Lemma get_wifi_mode_prefers_WifiMode_witness :
  get_wifi_mode [mkMode WifiMode "station" 5]
                [mkMode WifiModeOnBoot "station" 5] "5"
  = Ok (mkMode WifiMode "station" 5).
Proof.
  destruct (get_wifi_mode_prefers_WifiMode
              [mkMode WifiMode "station" 5] [mkMode WifiModeOnBoot "station" 5]
              "5" 5 (mkMode WifiMode "station" 5) eq_refl
              (or_introl eq_refl) eq_refl) as (found & Hin & _ & Hget & _).
  rewrite Hget. destruct Hin as [<- | []]. reflexivity.
Defined.

(** ** The flat listings *)

Lemma filter_filter_andb {A : Type} (p q : A -> bool) (l : list A) :
  List.filter q (List.filter p l) = List.filter (fun x => p x && q x) l.
Proof.
  induction l as [|x l IH]; [reflexivity |].
  cbn [List.filter]. destruct (p x); cbn [List.filter andb].
  - destruct (q x); rewrite IH; reflexivity.
  - exact IH.
Qed.

Lemma keeps_app (first second : list (FileInfo -> bool)) (f : FileInfo) :
  keeps (first ++ second) f = keeps first f && Py.all_of second f.
Proof.
  unfold keeps, Py.all_of. rewrite forallb_app. apply andb_assoc.
Qed.

(** Filters add up: listing with the filters [first ++ second] is listing
    with [first] and keeping what every filter of [second] accepts; the
    order of the two groups does not matter; and with a filter that accepts
    nothing, nothing is yielded. The exception that ends the listing, if
    any, is the same in all cases. *)
Theorem list_files_filters_compose (first second : list (FileInfo -> bool))
    (text : string) :
  list_files (first ++ second) text =
    (List.filter (Py.all_of second) (fst (list_files first text)),
     snd (list_files first text))
  /\ list_files (first ++ second) text = list_files (second ++ first) text
  /\ fst (list_files ((fun _ => false) :: first) text) = []
  /\ snd (list_files (first ++ second) text) = snd (list_files [] text).
Proof.
  unfold list_files. destruct (_split_file_list text) as [files raised].
  cbn [fst snd]. repeat split.
  - f_equal. rewrite filter_filter_andb. apply filter_ext. intros f.
    apply keeps_app.
  - f_equal. apply filter_ext. intros f. rewrite !keeps_app.
    unfold keeps. rewrite <- !andb_assoc. f_equal. apply andb_comm.
  - induction files as [|f files IH]; [reflexivity |].
    cbn [List.filter]. unfold keeps at 1, Py.all_of. cbn [forallb].
    rewrite andb_false_r. exact IH.
Qed.

(** [list_files] never yields a directory: whatever the response and the
    filters, and also when the listing ends in an exception, an entry it
    yields is no directory, is accepted by every filter, and is the decoded
    form of a line of the response that has six groups. *)
Theorem list_files_yields_only_files (filters : list (FileInfo -> bool))
    (text : string) (f : FileInfo) :
  In f (fst (list_files filters text)) ->
  directly (attribute f) = false
  /\ (forall filt, In filt filters -> filt f = true)
  /\ exists line, In line (Py.split text CRLF)
                  /\ decode_line line = Some (Ok f)
                  /\ List.length (Py.split line ",") = 6%nat.
Proof.
  unfold list_files, _split_file_list.
  destruct (decode_lines decode_line (Py.split text CRLF)) as [files raised] eqn:H.
  cbn [fst]. intros Hin. apply filter_In in Hin as [Hin Hkeep].
  unfold keeps in Hkeep. apply andb_true_iff in Hkeep as [Hdir Hall].
  apply negb_true_iff in Hdir. split; [exact Hdir |]. split.
  - intros filt Hfilt. unfold Py.all_of in Hall.
    rewrite forallb_forall in Hall. apply (Hall filt Hfilt).
  - assert (Hin' : In f (fst (decode_lines decode_line (Py.split text CRLF))))
      by (rewrite H; exact Hin).
    apply in_decode_lines in Hin' as (line & Hline & Hdec).
    exists line. split; [exact Hline |]. split; [exact Hdec |].
    destruct (Nat.eq_dec (List.length (Py.split line ",")) 6%nat) as [E | E];
      [exact E |].
    apply decode_line_none in E. congruence.
Qed.

Lemma list_files_yields_only_files_witness :
  let text := ("/DCIM,SUB,0,16,33,0" +:+ CRLF
               +:+ "/DCIM,100.JPG,42,32,33,0")%string in
  forallb (fun f => negb (directly (attribute f)))
          (fst (list_files [] text)) = true.
Proof.
  intros text. apply forallb_forall. intros f Hf.
  destruct (list_files_yields_only_files [] text f Hf) as [Hdir _].
  rewrite Hdir. reflexivity.
Defined.

(** [_split_file_list_raw] decodes what [_split_file_list] decodes: a line
    that gives an entry gives the raw entry with the same directory, file
    name, path and size, so when the full decoder reaches the end of a
    response the raw one yields the same entries, directories included. *)
Lemma decode_line_to_raw (line : string) :
  match decode_line line with
  | Some (Ok f) => decode_line_raw line = Some (Ok (to_raw f))
  | Some (Err _) => True
  | None => decode_line_raw line = None
  end.
Proof.
  unfold decode_line, decode_line_raw.
  destruct (Py.split line ",") as [|a [|b [|c [|d [|e [|g [|h l]]]]]]];
    try reflexivity.
  unfold decode_entry, decode_entry_raw, int_field.
  destruct (Py.int c) as [sz |]; cbn [bind]; [| exact I].
  destruct (Py.int d) as [attr_val |]; cbn [bind]; [| exact I].
  destruct (Py.int e) as [date_val |]; cbn [bind]; [| exact I].
  destruct (Py.int g) as [time_val |]; cbn [bind]; [| exact I].
  destruct (_decode_time date_val time_val) as [timeinfo | err]; cbn [bind];
    [reflexivity | exact I].
Qed.

Theorem split_file_list_raw_agrees (text : string)
    (filters : list (Raw.RawFileInfo -> bool)) :
  snd (_split_file_list text) = None ->
  _split_file_list_raw text
  = (List.map to_raw (fst (_split_file_list text)), None)
  /\ list_files_raw filters text
     = (List.filter (Py.all_of filters)
          (List.map to_raw (fst (_split_file_list text))), None)
  /\ (List.length (fst (list_files [] text))
      <= List.length (fst (list_files_raw [] text)))%nat.
Proof.
  unfold list_files, list_files_raw, _split_file_list, _split_file_list_raw.
  generalize (Py.split text CRLF) as lines. intros lines Hnone.
  assert (Hraw : decode_lines decode_line_raw lines
                 = (List.map to_raw (fst (decode_lines decode_line lines)), None)).
  { induction lines as [|line lines IH]; [reflexivity |].
    cbn [decode_lines] in *. pose proof (decode_line_to_raw line) as Hline.
    destruct (decode_line line) as [[f | e] |].
    - rewrite Hline.
      destruct (decode_lines decode_line lines) as [files raised].
      cbn [fst snd] in *. rewrite (IH Hnone). reflexivity.
    - discriminate.
    - rewrite Hline. exact (IH Hnone). }
  rewrite Hraw. destruct (decode_lines decode_line lines) as [files raised].
  cbn [fst snd]. repeat split.
  cbn [Py.all_of forallb]. unfold Py.all_of. cbn [forallb].
  rewrite (forallb_filter_id (fun _ => true)) by (apply forallb_forall; auto).
  rewrite length_map. apply filter_length_le.
Qed.

Lemma split_file_list_raw_agrees_witness :
  let text := ("/DCIM,SUB,0,16,33,0" +:+ CRLF
               +:+ "/DCIM,100.JPG,42,32,33,0")%string in
  List.map Raw.filename (fst (_split_file_list_raw text))
  = List.map filename (fst (_split_file_list text)).
Proof.
  intros text.
  assert (Hnone : snd (_split_file_list text) = None) by (vm_compute; reflexivity).
  rewrite (proj1 (split_file_list_raw_agrees text [] Hnone)). cbn [fst].
  rewrite List.map_map. reflexivity.
Defined.

(** ** The mappings by file name *)

Lemma dict_by_filename_raw_snoc (files : list Raw.RawFileInfo)
    (f : Raw.RawFileInfo) :
  dict_by_filename_raw (files ++ [f])
  = <[Raw.filename f := f]> (dict_by_filename_raw files).
Proof. unfold dict_by_filename_raw. rewrite fold_left_app. reflexivity. Qed.

Lemma dict_by_filename_raw_dom (files : list Raw.RawFileInfo) :
  dom (dict_by_filename_raw files) = list_to_set (List.map Raw.filename files).
Proof.
  induction files as [|f files IH] using rev_ind; [reflexivity |].
  rewrite dict_by_filename_raw_snoc, dom_insert_L, IH.
  rewrite List.map_app, list_to_set_app_L. simpl.
  rewrite (right_id_L ∅ (∪)). apply (comm_L (∪)).
Qed.

Lemma dict_by_filename_raw_last (pre post : list Raw.RawFileInfo)
    (f : Raw.RawFileInfo) :
  (forall g, In g post -> Raw.filename g <> Raw.filename f) ->
  dict_by_filename_raw (pre ++ f :: post) !! Raw.filename f = Some f.
Proof.
  induction post as [|g post IH] using rev_ind; intros Hpost.
  - rewrite dict_by_filename_raw_snoc. apply lookup_insert_eq.
  - replace (pre ++ f :: post ++ [g]) with ((pre ++ f :: post) ++ [g])
      by (rewrite <- app_assoc; reflexivity).
    rewrite dict_by_filename_raw_snoc, lookup_insert_ne.
    + apply IH. intros h Hh. apply Hpost. apply in_or_app. auto.
    + apply Hpost. apply in_or_app. simpl. auto.
Qed.

(** [map_files_raw] behaves as [map_files] does: when it returns a mapping,
    the keys are the file names of the entries [list_files_raw] yields, and
    under a name that occurs more than once the last entry yielded is
    stored. *)
Theorem map_files_raw_keys (filters : list (Raw.RawFileInfo -> bool))
    (text : string) (d : gmap string Raw.RawFileInfo) :
  map_files_raw filters text = Ok d ->
  let files := fst (list_files_raw filters text) in
  dom d = list_to_set (List.map Raw.filename files)
  /\ (forall pre f post, files = pre ++ f :: post ->
      (forall g, In g post -> Raw.filename g <> Raw.filename f) ->
      d !! Raw.filename f = Some f).
Proof.
  unfold map_files_raw.
  destruct (list_files_raw filters text) as [files [e |]]; [discriminate |].
  intros [= <-]. simpl. split.
  - apply dict_by_filename_raw_dom.
  - intros pre f post -> Hpost. apply dict_by_filename_raw_last. exact Hpost.
Qed.

Lemma map_files_raw_keys_witness :
  let text := ("/DCIM,A.JPG,1,32,33,0" +:+ CRLF
               +:+ "/DCIM,A.JPG,3,x,y,z")%string in
  exists d, map_files_raw [] text = Ok d
    /\ dom d = list_to_set (List.map Raw.filename
                              (fst (list_files_raw [] text))).
Proof.
  intros text.
  assert (Hnone : snd (list_files_raw [] text) = None)
    by (vm_compute; reflexivity).
  assert (Hd : map_files_raw [] text
               = Ok (dict_by_filename_raw (fst (list_files_raw [] text)))).
  { unfold map_files_raw. destruct (list_files_raw [] text) as [files raised].
    simpl in Hnone. rewrite Hnone. reflexivity. }
  eexists. split; [exact Hd |].
  exact (proj1 (map_files_raw_keys [] text _ Hd)).
Defined.

Lemma dict_by_filename_lookup (files : list FileInfo) (k : string)
    (f : FileInfo) :
  dict_by_filename files !! k = Some f -> In f files /\ filename f = k.
Proof.
  induction files as [|g files IH] using rev_ind.
  - unfold dict_by_filename. cbn [fold_left]. rewrite lookup_empty.
    discriminate.
  - rewrite dict_by_filename_snoc.
    destruct (decide (filename g = k)) as [E | E].
    + rewrite E, lookup_insert_eq. intros [= <-]. split; [| exact E].
      apply in_or_app. simpl. auto.
    + rewrite lookup_insert_ne by exact E. intros H.
      destruct (IH H) as [Hin Hk]. split; [| exact Hk].
      apply in_or_app. auto.
Qed.

(** What [map_files] stores are entries [list_files] yields, each under its
    own file name; when the file names yielded are all different, every
    entry yielded is found under its file name, so nothing is lost. *)
Theorem map_files_lookup (filters : list (FileInfo -> bool)) (text : string)
    (d : gmap string FileInfo) :
  map_files filters text = Ok d ->
  let files := fst (list_files filters text) in
  (forall k f, d !! k = Some f -> In f files /\ filename f = k)
  /\ (NoDup (List.map filename files) ->
      forall f, In f files -> d !! filename f = Some f).
Proof.
  unfold map_files.
  destruct (list_files filters text) as [files [e |]]; [discriminate |].
  intros [= <-]. cbn [fst]. split.
  - intros k f. apply dict_by_filename_lookup.
  - intros Hnodup f Hin. apply in_split in Hin as (pre & post & ->).
    apply dict_by_filename_last. intros g Hg Heq.
    rewrite List.map_app in Hnodup. cbn [List.map] in Hnodup.
    apply NoDup_app in Hnodup as (_ & _ & Hnodup).
    apply NoDup_cons in Hnodup as [Hfresh _]. apply Hfresh.
    rewrite <- Heq. apply list_elem_of_In. apply in_map. exact Hg.
Qed.

Lemma map_files_lookup_witness :
  let text := ("/DCIM,A.JPG,1,32,33,0" +:+ CRLF
               +:+ "/DCIM,B.JPG,2,32,33,0")%string in
  exists d, map_files [] text = Ok d
    /\ forall k f, d !! k = Some f -> filename f = k.
Proof.
  intros text.
  assert (Hnone : snd (list_files [] text) = None) by (vm_compute; reflexivity).
  assert (Hd : map_files [] text
               = Ok (dict_by_filename (fst (list_files [] text)))).
  { unfold map_files. destruct (list_files [] text) as [files raised].
    simpl in Hnone. rewrite Hnone. reflexivity. }
  eexists. split; [exact Hd |].
  intros k f Hk. exact (proj2 (proj1 (map_files_lookup [] text _ Hd) k f Hk)).
Defined.

(** ** The lines that are decoded *)

Lemma split_go_nonempty (sep : list ascii) (skip : nat) (l : list ascii) :
  Py.split_go sep skip l <> [].
Proof.
  revert skip. induction l as [|c l IH]; intros skip; [discriminate |].
  cbn [Py.split_go]. destruct skip as [|k]; [| apply IH].
  destruct (Py.startswith sep (c :: l)); [discriminate |].
  destruct (Py.split_go sep 0 l); discriminate.
Qed.

Lemma split_go_char_length (c : ascii) (l : list ascii) :
  List.length (Py.split_go [c] 0 l)
  = S (List.length (List.filter (Ascii.eqb c) l)).
Proof.
  induction l as [|x l IH]; [reflexivity |].
  cbn [Py.split_go Py.startswith List.filter List.length Nat.pred].
  destruct (Ascii.eqb c x).
  - cbn [List.length]. rewrite IH. reflexivity.
  - pose proof (split_go_nonempty [c] 0 l) as Hne.
    destruct (Py.split_go [c] 0 l) as [|h t]; [congruence |]. exact IH.
Qed.

(** A line is decoded exactly when it holds five commas: a line with fewer
    or more is passed over by both decoders, whatever else it holds. *)
Theorem decode_line_five_commas (line : string) :
  List.length (Py.split line ",") = S (commas line)
  /\ (decode_line line <> None <-> commas line = 5%nat)
  /\ (decode_line_raw line <> None <-> commas line = 5%nat).
Proof.
  assert (Hlen : List.length (Py.split line ",") = S (commas line)).
  { unfold Py.split, commas. rewrite length_map.
    apply split_go_char_length. }
  split; [exact Hlen |].
  pose proof (decode_line_none line) as Hfull.
  pose proof (decode_line_raw_none line) as Hraw.
  rewrite Hlen in Hfull, Hraw.
  split; split; intros H.
  - destruct (Nat.eq_dec (commas line) 5%nat) as [E | E]; [exact E |].
    exfalso. apply H. apply Hfull. lia.
  - intros Hnone. apply Hfull in Hnone. lia.
  - destruct (Nat.eq_dec (commas line) 5%nat) as [E | E]; [exact E |].
    exfalso. apply H. apply Hraw. lia.
  - intros Hnone. apply Hraw in Hnone. lia.
Qed.

Lemma decode_lines_app_skipped {A : Type}
    (decode : string -> option (result A)) (lines more : list string) :
  Forall (fun line => decode line = None) more ->
  decode_lines decode (lines ++ more) = decode_lines decode lines.
Proof.
  intros Hmore. induction lines as [|line lines IH].
  - cbn [app]. induction Hmore as [|l more Hl _ IH]; [reflexivity |].
    cbn [decode_lines]. rewrite Hl. exact IH.
  - cbn [app decode_lines]. rewrite IH. reflexivity.
Qed.

Lemma split_go_crlf_end (n : nat) (l : list ascii) :
  (List.length l <= n)%nat ->
  Py.split_go (Py.chars CRLF) 0 (l ++ Py.chars CRLF)
  = Py.split_go (Py.chars CRLF) 0 l ++ [[]].
Proof.
  change (Py.chars CRLF) with ["013"%char; "010"%char].
  revert l. induction n as [|n IH]; intros l Hlen.
  - destruct l; [reflexivity | cbn [List.length] in Hlen; lia].
  - destruct l as [|x l]; [reflexivity |].
    cbn [List.length] in Hlen.
    assert (Hplain : forall rest,
               Py.split_go ["013"%char; "010"%char] 0 (rest ++ ["013"%char; "010"%char])
               = Py.split_go ["013"%char; "010"%char] 0 rest ++ [[]] ->
               match Py.split_go ["013"%char; "010"%char] 0
                       (rest ++ ["013"%char; "010"%char]) with
               | h :: t => (x :: h) :: t
               | [] => [[x]]
               end
               = match Py.split_go ["013"%char; "010"%char] 0 rest with
                 | h :: t => (x :: h) :: t
                 | [] => [[x]]
                 end ++ [[]]).
    { intros rest ->.
      pose proof (split_go_nonempty ["013"%char; "010"%char] 0 rest) as Hne.
      destruct (Py.split_go ["013"%char; "010"%char] 0 rest); [congruence |].
      reflexivity. }
    cbn [app].
    cbn [Py.split_go Py.startswith List.length Nat.pred].
    destruct (Ascii.eqb "013" x).
    + destruct l as [|b l].
      * reflexivity.
      * cbn [app Py.split_go Py.startswith List.length Nat.pred].
        destruct (Ascii.eqb "010" b).
        -- cbn [app]. f_equal. apply IH. cbn [List.length] in Hlen. lia.
        -- apply (Hplain (b :: l)). apply IH. lia.
    + apply Hplain. apply IH. lia.
Qed.

(** A line end after the last line changes nothing: the response with one
    more CRLF at its end decodes to the same entries, and ends in the same
    exception if any, for both decoders and so for every listing. *)
Theorem trailing_crlf_ignored (text : string)
    (filters : list (FileInfo -> bool)) :
  _split_file_list (String.append text CRLF) = _split_file_list text
  /\ _split_file_list_raw (String.append text CRLF) = _split_file_list_raw text
  /\ list_files filters (String.append text CRLF) = list_files filters text.
Proof.
  assert (Hsplit : Py.split (String.append text CRLF) CRLF
                   = Py.split text CRLF ++ [EmptyString]).
  { unfold Py.split. rewrite chars_append.
    rewrite (split_go_crlf_end (List.length (Py.chars text))) by lia.
    rewrite List.map_app. reflexivity. }
  assert (Hfull : _split_file_list (String.append text CRLF)
                  = _split_file_list text).
  { unfold _split_file_list. rewrite Hsplit.
    apply decode_lines_app_skipped. repeat constructor. }
  split; [exact Hfull |]. split.
  - unfold _split_file_list_raw. rewrite Hsplit.
    apply decode_lines_app_skipped. repeat constructor.
  - unfold list_files. rewrite Hfull. reflexivity.
Qed.

(** ** The path of an ordinary entry *)

Lemma append_cons (c : ascii) (a b : string) :
  String.append (String c a) b = String c (String.append a b).
Proof. reflexivity. Qed.

Lemma append_assoc (a b c : string) :
  String.append (String.append a b) c = String.append a (String.append b c).
Proof.
  induction a as [|x a IH]; [reflexivity |].
  rewrite !append_cons, IH. reflexivity.
Qed.

Lemma join_snoc (sep : string) (parts : list string) (x : string) :
  parts <> [] ->
  Py.join sep (parts ++ [x])
  = String.append (Py.join sep parts) (String.append sep x).
Proof.
  induction parts as [|p parts IH]; [congruence |]. intros _.
  destruct parts as [|q parts]; [reflexivity |].
  change (Py.join sep ((p :: q :: parts) ++ [x]))
    with (String.append p (String.append sep (Py.join sep ((q :: parts) ++ [x])))).
  rewrite IH by discriminate.
  change (Py.join sep (p :: q :: parts))
    with (String.append p (String.append sep (Py.join sep (q :: parts)))).
  rewrite !append_assoc. reflexivity.
Qed.

Lemma plain_nonempty (p : string) :
  plain_component p = true -> String.eqb p EmptyString = false.
Proof.
  intros H. destruct (plain_component_chars p H) as [Hk _].
  unfold PurePosixPath.keep in Hk. apply andb_true_iff in Hk as [Hk _].
  apply negb_true_iff in Hk. exact Hk.
Qed.

Lemma splitroot_plain (p : string) :
  plain_component p = true ->
  PurePosixPath.splitroot p = (EmptyString, p).
Proof.
  intros H. destruct (plain_component_chars p H) as [_ Hsep].
  unfold PurePosixPath.splitroot.
  destruct (Py.chars p) as [|c l]; [reflexivity |].
  cbn [existsb] in Hsep. apply orb_false_iff in Hsep as [Hc _].
  rewrite Ascii.eqb_sym in Hc. rewrite Hc. reflexivity.
Qed.

Lemma components_plain (p : string) :
  plain_component p = true -> PurePosixPath.components p = [p].
Proof.
  intros H. destruct (plain_component_chars p H) as [Hk Hsep].
  unfold PurePosixPath.components, Py.split.
  change (Py.chars "/") with ["/"%char].
  rewrite (split_go_plain _ Hsep). cbn [List.map List.filter].
  rewrite str_chars, Hk. reflexivity.
Qed.

Lemma splitroot_slash_join (parts : list string) :
  Forall (fun p => plain_component p = true) parts ->
  PurePosixPath.splitroot (String "/" (Py.join "/" parts))
  = ("/"%string, Py.join "/" parts).
Proof.
  intros Hall. unfold PurePosixPath.splitroot.
  change (Py.chars (String "/" (Py.join "/" parts)))
    with ("/"%char :: Py.chars (Py.join "/" parts)).
  change (Ascii.eqb "/" PurePosixPath.sep) with true. cbv iota.
  cbn [PurePosixPath.lstrip_sep].
  change (Ascii.eqb "/" PurePosixPath.sep) with true. cbv iota.
  rewrite (lstrip_sep_plain parts Hall), str_chars.
  replace (_ =? 2)%nat with false; [reflexivity |].
  symmetry. apply Nat.eqb_neq. cbn [List.length]. lia.
Qed.

Lemma components_join (parts : list string) :
  Forall (fun p => plain_component p = true) parts ->
  PurePosixPath.components (Py.join "/" parts) = parts.
Proof.
  intros Hall. unfold PurePosixPath.components.
  destruct parts as [|p parts]; [reflexivity |].
  rewrite split_join_plain by (assumption || discriminate).
  apply forallb_filter_id. apply forallb_forall. intros x Hx.
  rewrite Forall_forall in Hall.
  apply (plain_component_chars x). apply Hall.
  apply list_elem_of_In. exact Hx.
Qed.

Lemma to_str_plain_filename (parts : list string) (name : string) :
  Forall (fun p => plain_component p = true) parts ->
  plain_component name = true ->
  PurePosixPath.to_str [EmptyString; name] = name
  /\ PurePosixPath.to_str [String "/" (Py.join "/" parts); name]
     = String "/" (Py.join "/" (parts ++ [name])).
Proof.
  intros Hparts Hname.
  unfold PurePosixPath.to_str, PurePosixPath.parse_parts.
  cbn [rev app PurePosixPath.parse_parts_rev].
  rewrite (plain_nonempty name Hname), (splitroot_plain name Hname).
  change (String.eqb EmptyString EmptyString) with true. cbv iota.
  rewrite (components_plain name Hname). split.
  - cbn [app Py.join]. change (String.append EmptyString name) with name.
    rewrite (plain_nonempty name Hname). reflexivity.
  - change (String.eqb (String "/" (Py.join "/" parts)) EmptyString) with false.
    cbv iota. rewrite (splitroot_slash_join parts Hparts).
    change (String.eqb "/" EmptyString) with false. cbv iota.
    rewrite (components_join parts Hparts). reflexivity.
Qed.

(** For an entry whose file name is one plain component (not empty, not ".",
    without separator), the path is the file name alone when the directory
    field is empty, and the directory, a separator and the file name when
    the directory is a separator followed by plain components joined by
    separators ("/DCIM" and "100.JPG" give "/DCIM/100.JPG"). *)
Theorem path_of_plain_entry (line : string) (f : FileInfo)
    (parts : list string) :
  decode_line line = Some (Ok f) ->
  plain_component (filename f) = true ->
  Forall (fun p => plain_component p = true) parts ->
  (directory f = EmptyString -> path f = filename f)
  /\ (directory f = String "/" (Py.join "/" parts) ->
      path f = String "/" (Py.join "/" (parts ++ [filename f]))
      /\ (parts <> [] ->
          path f = String.append (directory f)
                     (String.append "/" (filename f)))).
Proof.
  intros Hf Hname Hparts.
  destruct (decode_line_fields line f Hf) as (_ & _ & _ & _ & _ & _ & Hpath & _).
  destruct (to_str_plain_filename parts (filename f) Hparts Hname)
    as [Hempty Hrooted].
  split.
  - intros Hdir. rewrite Hpath, Hdir. exact Hempty.
  - intros Hdir. rewrite Hpath, Hdir. split; [exact Hrooted |].
    intros Hne. rewrite Hrooted, (join_snoc "/" parts (filename f) Hne).
    reflexivity.
Qed.

Lemma path_of_plain_entry_witness :
  exists f, decode_line "/DCIM/100__TSB,IMG_1.JPG,42,32,33,0" = Some (Ok f)
            /\ path f = "/DCIM/100__TSB/IMG_1.JPG"%string.
Proof.
  destruct (decode_line "/DCIM/100__TSB,IMG_1.JPG,42,32,33,0")
    as [[f | e] |] eqn:Hf; [| vm_compute in Hf; discriminate ..].
  exists f. split; [reflexivity |].
  assert (Hname : filename f = "IMG_1.JPG"%string).
  { vm_compute in Hf. injection Hf as <-. reflexivity. }
  assert (Hdir : directory f = String "/" (Py.join "/" ["DCIM"; "100__TSB"]%string)).
  { vm_compute in Hf. injection Hf as <-. reflexivity. }
  destruct (path_of_plain_entry _ f ["DCIM"; "100__TSB"]%string Hf)
    as [_ Hrooted].
  - rewrite Hname. reflexivity.
  - repeat constructor.
  - destruct (Hrooted Hdir) as [_ Hjoin].
    rewrite Hjoin by discriminate. rewrite Hdir, Hname. reflexivity.
Defined.

(** ** The recursive listing, whatever the device answers *)

Lemma normalized_id (g : FileInfo) :
  directory g = EmptyString \/ Py.str_startswith (directory g) "/" = true ->
  normalized g = g.
Proof.
  unfold normalized. intros [-> | ->]; [reflexivity |].
  rewrite andb_false_r. reflexivity.
Qed.

Lemma requests_app (a b : list event) :
  requests (a ++ b) = requests a ++ requests b.
Proof. unfold requests. apply flat_map_app. Qed.

Lemma requests_yields (files : list FileInfo) :
  requests (List.map Yield files) = [].
Proof. induction files as [|f files IH]; [reflexivity | exact IH]. Qed.

Lemma scan_queue_unfold (fuel : nat) (device : string -> string)
    (filters : list (FileInfo -> bool)) (dir : string) (queue : list string) :
  scan_queue (S fuel) device filters (dir :: queue) =
  match snd (_split_file_list (device dir)) with
  | Some e => (visit device filters dir, Raised e)
  | None =>
      (visit device filters dir
         ++ fst (scan_queue fuel device filters (queue ++ children device dir)),
       snd (scan_queue fuel device filters (queue ++ children device dir)))
  end.
Proof.
  destruct (snd (_split_file_list (device dir))) as [e |] eqn:H.
  - apply scan_queue_raise. exact H.
  - apply scan_queue_step. unfold listed. rewrite H. reflexivity.
Qed.

Lemma scan_queue_no_fuel (device : string -> string)
    (filters : list (FileInfo -> bool)) (queue : list string) :
  fst (scan_queue 0 device filters queue) = [].
Proof. destruct queue; reflexivity. Qed.

Section AnyDevice.

Variable device : string -> string.
Variable filters : list (FileInfo -> bool).

Lemma visit_safe (dir : string) (ev : event) :
  Py.str_startswith dir "/" = true ->
  In ev (visit device filters dir) ->
  match ev with
  | Request d => Py.str_startswith d "/" = true
  | Yield f =>
      directly (attribute f) = false /\ Py.all_of filters f = true
      /\ (directory f = EmptyString
          \/ Py.str_startswith (directory f) "/" = true)
  end.
Proof.
  intros Hdir [<- | Hin]; [exact Hdir |].
  apply in_map_iff in Hin as (f & <- & Hf).
  apply in_files_in in Hf as (g & Hg & Hnodir & -> & Hall).
  destruct (normalized_entry _ g Hg) as (Hempty & Hrooted & _ & _ & Hattr & _).
  rewrite Hattr. split; [exact Hnodir |]. split; [exact Hall |].
  destruct (String.eqb_spec (directory g) EmptyString) as [E | E].
  - left. rewrite (Hempty E). exact E.
  - right. apply (Hrooted E).
Qed.

Lemma scan_queue_safe (fuel : nat) (queue : list string) (ev : event) :
  Forall (fun d => Py.str_startswith d "/" = true) queue ->
  In ev (fst (scan_queue fuel device filters queue)) ->
  match ev with
  | Request d => Py.str_startswith d "/" = true
  | Yield f =>
      directly (attribute f) = false /\ Py.all_of filters f = true
      /\ (directory f = EmptyString
          \/ Py.str_startswith (directory f) "/" = true)
  end.
Proof.
  revert queue. induction fuel as [|fuel IH]; intros queue Hqueue Hin.
  - rewrite scan_queue_no_fuel in Hin. destruct Hin.
  - destruct queue as [|dir queue]; [destruct Hin |].
    apply Forall_cons in Hqueue as [Hdir Hqueue].
    rewrite scan_queue_unfold in Hin.
    destruct (snd (_split_file_list (device dir))) as [e |]; cbn [fst] in Hin.
    + apply (visit_safe dir ev Hdir Hin).
    + apply in_app_or in Hin as [Hin | Hin].
      * apply (visit_safe dir ev Hdir Hin).
      * apply (IH (queue ++ children device dir)); [| exact Hin].
        apply Forall_app. split; [exact Hqueue |].
        pose proof (children_rooted device [dir]) as Hchildren.
        cbn [flat_map] in Hchildren. rewrite app_nil_r in Hchildren.
        exact Hchildren.
Qed.

Lemma scan_queue_visits (fuel : nat) (queue : list string) :
  fst (scan_queue fuel device filters queue)
  = flat_map (visit device filters)
      (requests (fst (scan_queue fuel device filters queue))).
Proof.
  revert queue. induction fuel as [|fuel IH]; intros queue.
  - rewrite scan_queue_no_fuel. reflexivity.
  - destruct queue as [|dir queue]; [reflexivity |].
    assert (Hvisit : requests (visit device filters dir) = [dir]).
    { unfold visit. change (requests (Request dir :: ?l))
        with (dir :: requests l). rewrite requests_yields. reflexivity. }
    rewrite scan_queue_unfold.
    destruct (snd (_split_file_list (device dir))) as [e |]; cbn [fst].
    + rewrite Hvisit. cbn [flat_map]. rewrite app_nil_r. reflexivity.
    + rewrite requests_app, Hvisit. cbn [app flat_map].
      rewrite <- IH. reflexivity.
Qed.

Lemma scan_queue_raised (fuel : nat) (queue : list string)
    (events : list event) (e : exn) :
  scan_queue fuel device filters queue = (events, Raised e) ->
  exists before dir,
    events = before ++ visit device filters dir
    /\ snd (_split_file_list (device dir)) = Some e.
Proof.
  revert queue events. induction fuel as [|fuel IH]; intros queue events H.
  - destruct queue; discriminate.
  - destruct queue as [|dir queue]; [discriminate |].
    rewrite scan_queue_unfold in H.
    destruct (snd (_split_file_list (device dir))) as [e' |] eqn:Hdir.
    + injection H as <- <-. exists [], dir. split; [reflexivity | exact Hdir].
    + destruct (scan_queue fuel device filters (queue ++ children device dir))
        as [later out] eqn:Hlater.
      cbn [fst snd] in H. injection H as <- ->.
      destruct (IH _ _ Hlater) as (before & d & -> & Hd).
      exists (visit device filters dir ++ before), d.
      split; [rewrite <- app_assoc; reflexivity | exact Hd].
Qed.

End AnyDevice.

(** Whatever the device answers and however far the traversal gets,
    [list_files_recursive] requests only directories that begin with a
    separator, and yields only entries that are no directory, that every
    filter accepts, and whose directory field is empty or begins with a
    separator. *)
Theorem list_files_recursive_safe (fuel : nat) (device : string -> string)
    (filters : list (FileInfo -> bool)) (remote_dir : string) (ev : event) :
  In ev (fst (list_files_recursive fuel device filters remote_dir)) ->
  match ev with
  | Request d => Py.str_startswith d "/" = true
  | Yield f =>
      directly (attribute f) = false /\ Py.all_of filters f = true
      /\ (directory f = EmptyString
          \/ Py.str_startswith (directory f) "/" = true)
  end.
Proof.
  unfold list_files_recursive. apply scan_queue_safe.
  constructor; [apply with_leading_sep_rooted | constructor].
Qed.

Lemma list_files_recursive_safe_witness :
  Py.str_startswith "/DCIM" "/" = true.
Proof.
  apply (list_files_recursive_safe 1 (fun _ => EmptyString) [] "DCIM"
           (Request "/DCIM")).
  left. reflexivity.
Defined.

(** The events of [list_files_recursive] are, for each directory requested
    in turn, the request followed by the files of the listing it got: no
    file is yielded before the request of its directory or after the next
    request, also when the traversal ends in an exception. *)
Theorem list_files_recursive_visits (fuel : nat) (device : string -> string)
    (filters : list (FileInfo -> bool)) (remote_dir : string) :
  let events := fst (list_files_recursive fuel device filters remote_dir) in
  events = flat_map (visit device filters) (requests events).
Proof. unfold list_files_recursive. apply scan_queue_visits. Qed.

(** When [list_files_recursive] ends in an exception, it is the exception
    of the listing requested last: the events end with that request and the
    files that precede the line that failed, and the directories still in
    the queue are not requested. *)
Theorem list_files_recursive_raised (fuel : nat) (device : string -> string)
    (filters : list (FileInfo -> bool)) (remote_dir : string)
    (events : list event) (e : exn) :
  list_files_recursive fuel device filters remote_dir = (events, Raised e) ->
  exists before dir,
    events = before ++ visit device filters dir
    /\ snd (_split_file_list (device dir)) = Some e.
Proof. unfold list_files_recursive. apply scan_queue_raised. Qed.

Lemma list_files_recursive_raised_witness :
  let device := fun _ : string =>
    ("/D,a.jpg,1,32,33,0" +:+ CRLF +:+ "/D,SUB,0,16,33,0" +:+ CRLF
     +:+ "/D,b.jpg,x,32,33,0" +:+ CRLF +:+ "/D,c.jpg,3,32,33,0")%string in
  exists before dir,
    fst (list_files_recursive 3 device [] "/D")
    = before ++ visit device [] dir
    /\ snd (_split_file_list (device dir)) = Some ValueError.
Proof.
  intros device.
  destruct (list_files_recursive 3 device [] "/D") as [events out] eqn:H.
  assert (Hout : out = Raised ValueError).
  { assert (Hsnd : snd (list_files_recursive 3 device [] "/D")
                   = Raised ValueError) by (vm_compute; reflexivity).
    rewrite H in Hsnd. exact Hsnd. }
  subst out. exact (list_files_recursive_raised 3 device [] "/D" events _ H).
Defined.

(** On a directory whose listing decodes and names no directory, and whose
    entries have a directory field that is empty or begins with a separator,
    [list_files_recursive] sends one request and yields what [list_files]
    yields for that response. *)
Theorem list_files_recursive_flat (fuel : nat) (device : string -> string)
    (filters : list (FileInfo -> bool)) (remote_dir : string) :
  let root := with_leading_sep remote_dir in
  listed device root = true ->
  children device root = [] ->
  Forall (fun g => directory g = EmptyString
                   \/ Py.str_startswith (directory g) "/" = true)
         (fst (_split_file_list (device root))) ->
  list_files_recursive (S fuel) device filters remote_dir
  = (Request root :: List.map Yield (fst (list_files filters (device root))),
     Done).
Proof.
  intros root Hlisted Hleaf Hdirs. unfold list_files_recursive. fold root.
  rewrite (scan_queue_step device filters fuel root [] Hlisted), Hleaf.
  cbn [app].
  replace (scan_queue fuel device filters []) with (@nil event, Done)
    by (destruct fuel; reflexivity).
  cbn [fst snd]. rewrite app_nil_r. f_equal. unfold visit. f_equal. f_equal.
  unfold list_files, files_in.
  destruct (_split_file_list (device root)) as [entries raised].
  cbn [fst] in *.
  replace (List.map normalized
             (List.filter (fun f => negb (directly (attribute f))) entries))
    with (List.filter (fun f => negb (directly (attribute f))) entries).
  - rewrite filter_filter_andb. reflexivity.
  - rewrite <- (List.map_id (List.filter _ entries)) at 1.
    apply map_ext_in. intros g Hg. symmetry. apply normalized_id.
    apply filter_In in Hg as [Hg _]. rewrite Forall_forall in Hdirs.
    apply Hdirs. apply list_elem_of_In. exact Hg.
Qed.

Lemma list_files_recursive_flat_witness :
  let device := fun _ : string =>
    ("/DCIM,a.jpg,1,32,33,0" +:+ CRLF +:+ "/DCIM,b.jpg,2,32,33,0")%string in
  list_files_recursive 1 device [] "DCIM"
  = (Request "/DCIM" :: List.map Yield (fst (list_files [] (device "/DCIM"))),
     Done).
Proof.
  intros device.
  apply (list_files_recursive_flat 0 device [] "DCIM").
  - vm_compute. reflexivity.
  - vm_compute. reflexivity.
  - replace (fst (_split_file_list (device (with_leading_sep "DCIM"))))
      with (fst (_split_file_list (device "/DCIM"))) by reflexivity.
    apply Forall_forall. intros g Hg. apply list_elem_of_In in Hg.
    right. apply in_decode_lines in Hg as (line & Hline & Hdec).
    vm_compute in Hline.
    destruct Hline as [<- | [<- | []]]; vm_compute in Hdec;
      injection Hdec as <-; reflexivity.
Defined.
